(** * Diamond House Cleaning: booking and payment core

    A shallow embedding of the server's booking controller, payment
    controller and the Booking / Payment Mongoose models, with the
    properties of the pricing, cancellation, payment-verification, webhook
    and refund paths.

    Conventions of the embedding.
    - A JavaScript [Number] of the booking and payment paths (prices,
      quantities, amounts) is a binary64 [float]; [+], [*], [/] and the
      comparisons are the IEEE 754 operations, each rounding to the
      nearest double.  Instants (milliseconds since the epoch, the value
      of a [Date]) and counters are integers [Z].  The amounts of the
      Coupon model, which are only stored and compared, are read as the
      rationals they denote.
    - A MongoDB collection is the list of its documents in natural
      (insertion) order.  [findOne] returns the first match,
      [findOneAndUpdate] rewrites the first match.
    - Mongoose validates a new document before it runs the [pre('save')]
      hooks, and casts an update document to the schema before it runs the
      query.
    - A request handler is a function from the request and the world to a
      response and the new world.  An exception thrown inside the handler's
      [try] block becomes the 500 response of its [catch] block; writes made
      before the exception stay. *)

From Stdlib Require Import List String Ascii Bool ZArith QArith Qround Lia.
From Stdlib Require Import DecimalString DecimalNat Sorted Permutation.
From Stdlib Require Import Floats.PrimFloat Floats.SpecFloat Floats.FloatOps.
From Stdlib Require Import Floats.FloatAxioms.
From Stdlib Require Import Numbers.Cyclic.Int63.Uint63.
Import ListNotations.

Local Open Scope string_scope.
Local Open Scope Z_scope.

(** ** Identifiers, roles, responses *)

Definition ObjectId := nat.

Inductive Role := customer | staff | admin.

Definition Role_eqb (a b : Role) : bool :=
  match a, b with
  | customer, customer | staff, staff | admin, admin => true
  | _, _ => false
  end.

Module User.
Record t := mk
  { _id : ObjectId;
    email : string;
    role : Role }.
End User.

(** [res.status(code).json({ success, message, data })]; [success] is
    [true] exactly on the 2xx answers of these handlers. *)
Record Response (D : Type) := mkResponse
  { res_status : nat;
    res_message : string;
    res_data : option D }.
Arguments mkResponse {D} _ _ _.
Arguments res_status {D} _.
Arguments res_message {D} _.
Arguments res_data {D} _.

Definition fail {D} (code : nat) (msg : string) : Response D :=
  mkResponse code msg None.

Definition ok {D} (code : nat) (msg : string) (d : D) : Response D :=
  mkResponse code msg (Some d).

(** [res.status(code).send(text)] *)
Definition send (code : nat) (text : string) : Response unit :=
  mkResponse code text None.

(** [a || b] on an optional string: absent and empty are both falsy. *)
Definition or_default (a : option string) (b : string) : string :=
  match a with
  | Some EmptyString | None => b
  | Some s => s
  end.

(** ** Collections *)

Section Collection.
Context {A : Type}.

(** [Model.findOne(filter)] *)
Fixpoint findOne (p : A -> bool) (c : list A) : option A :=
  match c with
  | [] => None
  | d :: c' => if p d then Some d else findOne p c'
  end.

(** [Model.find(filter)] *)
Definition find (p : A -> bool) (c : list A) : list A := filter p c.

(** [Model.countDocuments(filter)] *)
Definition countDocuments (p : A -> bool) (c : list A) : nat :=
  List.length (filter p c).

(** The write of [Model.findOneAndUpdate(filter, update)]: the first
    document that matches is replaced by its update. *)
Fixpoint updateOne (p : A -> bool) (upd : A -> A) (c : list A) : list A :=
  match c with
  | [] => []
  | d :: c' => if p d then upd d :: c' else d :: updateOne p upd c'
  end.

(** [.sort({ key: -1 })]: stable insertion sort, largest key first. *)
Fixpoint insert_desc (key : A -> Z) (d : A) (c : list A) : list A :=
  match c with
  | [] => [d]
  | x :: c' => if key x <? key d then d :: x :: c' else x :: insert_desc key d c'
  end.

Definition sort_desc (key : A -> Z) (c : list A) : list A :=
  fold_right (insert_desc key) [] c.

End Collection.

(** ** Numbers *)

#[local] Set Warnings "-inexact-float".

(** [Math.round]: the integer nearest to [x], a tie going to the larger.
    A finite [x] is [v / 2^k] with [v] an integer; for [k > 0] the result
    is [floor ((2 v + 2^k) / 2^(k+1))], computed on integers.  Zeros,
    infinities, NaN and the doubles that are integers already are returned
    as they are. *)
Definition Math_round (x : float) : float :=
  match Prim2SF x with
  | S754_finite s m e =>
      if 0 <=? e then x
      else
        let v := if s then - Zpos m else Zpos m in
        let n := Z.shiftr (2 * v + Z.shiftl 1 (- e)) (1 - e) in
        let a := PrimFloat.of_uint63 (Uint63.of_Z (Z.abs n)) in
        if s then PrimFloat.opp a else a
  | _ => x
  end.

(** [x || y] on Numbers: 0, -0 and NaN are falsy. *)
Definition Number_or (x y : float) : float :=
  if (x =? 0)%float || PrimFloat.is_nan x then y else x.

(** ** Catalog and pricing (bookingController.createBooking, lines 20-51) *)

Module Service.
Record t := mk
  { _id : ObjectId;
    serviceName : string;
    isActive : bool;
    basePrice : float }.
End Service.

Record AddOn := mkAddOn
  { addOn_name : string;
    price : float }.

(** One element of [req.body.services]; [addOns] may be absent. *)
Module ServiceItem.
Record t := mk
  { serviceId : ObjectId;
    quantity : float;
    addOns : option (list AddOn) }.
End ServiceItem.

(** One element of [validatedServices], stored as [booking.services]. *)
Module LineItem.
Record t := mk
  { serviceId : ObjectId;
    serviceName : string;
    quantity : float;
    basePrice : float;
    addOns : list AddOn;
    subtotal : float }.
End LineItem.

Module Pricing.
Record t := mk
  { subtotal : float;
    tax : float;
    total : float }.
End Pricing.

(** [Service.findById(id)] *)
Definition Service_findById (catalog : list Service.t) (id : ObjectId)
  : option Service.t :=
  findOne (fun s => Nat.eqb (Service._id s) id) catalog.

(** [serviceItem.addOns?.reduce((sum, addOn) => sum + addOn.price, 0) || 0] *)
Definition addOnTotal (item : ServiceItem.t) : float :=
  match ServiceItem.addOns item with
  | Some l =>
      Number_or (fold_left (fun sum addOn => sum + price addOn)%float l 0%float)
        0%float
  | None => 0%float
  end.

(** The 400 answer of the loop:
    [`Service ${serviceItem.serviceId} not found or inactive`]. *)
Inductive PricingError :=
  | ServiceNotFoundOrInactive (id : ObjectId).

(** The [for (const serviceItem of services)] loop, with its two
    accumulators [subtotal] and [validatedServices]. *)
Fixpoint validateServices (catalog : list Service.t)
    (services : list ServiceItem.t)
    (subtotal : float) (validatedServices : list LineItem.t)
  : PricingError + (float * list LineItem.t) :=
  match services with
  | [] => inr (subtotal, validatedServices)
  | serviceItem :: rest =>
      match Service_findById catalog (ServiceItem.serviceId serviceItem) with
      | None =>
          inl (ServiceNotFoundOrInactive (ServiceItem.serviceId serviceItem))
      | Some service =>
          if negb (Service.isActive service)
          then inl (ServiceNotFoundOrInactive (ServiceItem.serviceId serviceItem))
          else
            let basePrice := Service.basePrice service in
            let itemTotal :=
              ((basePrice + addOnTotal serviceItem)
               * ServiceItem.quantity serviceItem)%float in
            validateServices catalog rest (subtotal + itemTotal)%float
              (validatedServices ++
                 [LineItem.mk (Service._id service) (Service.serviceName service)
                    (ServiceItem.quantity serviceItem) basePrice
                    (match ServiceItem.addOns serviceItem with
                     | Some l => l
                     | None => []
                     end)
                    itemTotal])
      end
  end.

(** Line 50: [Math.round(subtotal * 0.18 * 100) / 100]. *)
Definition taxOf (subtotal : float) : float :=
  (Math_round (subtotal * 0.18 * 100) / 100)%float.

(** Lines 20-51 of [createBooking]: validation, subtotal, 18% GST, total. *)
Definition computePricing (catalog : list Service.t)
    (services : list ServiceItem.t)
  : PricingError + (list LineItem.t * Pricing.t) :=
  match validateServices catalog services 0%float [] with
  | inl e => inl e
  | inr (subtotal, validatedServices) =>
      let tax := taxOf subtotal in
      let total := (subtotal + tax)%float in
      inr (validatedServices, Pricing.mk subtotal tax total)
  end.

(** ** The Booking model (models/Booking.js)

    The fields of the schema that no operation below reads or writes
    (address, instructions, assigned staff, completion, notifications) are
    left out. *)

Module BookingStatus.
(** The schema's enum, and [refunded], which [processRefund] writes through
    [findByIdAndUpdate] although the enum does not list it. *)
Inductive t :=
  | pending | confirmed | assigned | in_progress | completed | cancelled
  | refunded.

Definition eqb (a b : t) : bool :=
  match a, b with
  | pending, pending | confirmed, confirmed | assigned, assigned
  | in_progress, in_progress | completed, completed | cancelled, cancelled
  | refunded, refunded => true
  | _, _ => false
  end.
End BookingStatus.

Module Cancellation.
Record t := mk
  { isCancelled : bool;
    cancelledBy : option ObjectId;
    cancelledAt : option Z;
    cancellationReason : option string;
    refundAmount : option float }.

(** The schema default: [isCancelled: false], the rest undefined. *)
Definition default : t := mk false None None None None.
End Cancellation.

(** The object [verifyPayment] puts at [payment] in its update of the
    booking. *)
Module PaymentRef.
Record t := mk
  { paymentId : ObjectId;
    paymentStatus : string;
    paymentMethod : string }.
End PaymentRef.

Module Booking.
Record t := mk
  { _id : ObjectId;
    bookingNumber : string;
    customerId : ObjectId;
    services : list LineItem.t;
    scheduledDate : Z;
    scheduledTimeSlot : string;
    pricing : Pricing.t;
    status : BookingStatus.t;
    cancellation : Cancellation.t;
    payment : option ObjectId;
    createdAt : Z }.

Definition set_status (s : BookingStatus.t) (b : t) : t :=
  mk (_id b) (bookingNumber b) (customerId b) (services b) (scheduledDate b)
     (scheduledTimeSlot b) (pricing b) s (cancellation b) (payment b)
     (createdAt b).

Definition set_cancellation (c : Cancellation.t) (b : t) : t :=
  mk (_id b) (bookingNumber b) (customerId b) (services b) (scheduledDate b)
     (scheduledTimeSlot b) (pricing b) (status b) c (payment b) (createdAt b).

Definition set_payment (p : option ObjectId) (b : t) : t :=
  mk (_id b) (bookingNumber b) (customerId b) (services b) (scheduledDate b)
     (scheduledTimeSlot b) (pricing b) (status b) (cancellation b) p
     (createdAt b).

(** [Booking.findById(id)] *)
Definition findById (id : ObjectId) (c : list t) : option t :=
  findOne (fun b => Nat.eqb (_id b) id) c.

(** [Booking.findByIdAndUpdate(id, update)] *)
Definition findByIdAndUpdate (id : ObjectId) (upd : t -> t) (c : list t)
  : list t :=
  updateOne (fun b => Nat.eqb (_id b) id) upd c.

(** The cast of an update's [payment] to the type the schema gives that
    path, an ObjectId (lines 163-166).  The object that [verifyPayment]
    passes has the keys [paymentId], [paymentStatus] and [paymentMethod]
    and no [_id]: it is no ObjectId, and the cast throws ([None]). *)
Definition castPayment (v : PaymentRef.t) : option ObjectId := None.
End Booking.

(** *** Instance methods *)

(** [['pending', 'confirmed'].includes(this.status)] and the like. *)
Definition includes (l : list BookingStatus.t) (s : BookingStatus.t) : bool :=
  existsb (BookingStatus.eqb s) l.

(** [bookingSchema.methods.canCancel], [now] being [new Date()]. *)
Definition canCancel (now : Z) (this : Booking.t) : bool :=
  let scheduledTime := Booking.scheduledDate this in
  let twoHoursBefore := scheduledTime - 2 * 60 * 60 * 1000 in
  (now <? twoHoursBefore)
  && includes [BookingStatus.pending; BookingStatus.confirmed]
       (Booking.status this).

(** [bookingSchema.methods.canReschedule] *)
Definition canReschedule (now : Z) (this : Booking.t) : bool :=
  let scheduledTime := Booking.scheduledDate this in
  let fourHoursBefore := scheduledTime - 4 * 60 * 60 * 1000 in
  (now <? fourHoursBefore)
  && includes [BookingStatus.pending; BookingStatus.confirmed;
               BookingStatus.assigned]
       (Booking.status this).

(** *** Booking numbers (the [pre('save')] hook) *)

Definition msPerDay : Z := 86400000.

(** The civil date (year, month, day) of a day count since 1970-01-01, in
    the proleptic Gregorian calendar that [Date] uses. *)
Definition civil_from_days (days : Z) : Z * Z * Z :=
  let z := days + 719468 in
  let era := z / 146097 in
  let doe := z - era * 146097 in
  let yoe := (doe - doe / 1460 + doe / 36524 - doe / 146096) / 365 in
  let doy := doe - (365 * yoe + yoe / 4 - yoe / 100) in
  let mp := (5 * doy + 2) / 153 in
  let d := doy - (153 * mp + 2) / 5 + 1 in
  let m := if mp <? 10 then mp + 3 else mp - 9 in
  let y := yoe + era * 400 + (if m <=? 2 then 1 else 0) in
  (y, m, d).

(** [n.toString()] of a non-negative integer. *)
Definition toString (n : nat) : string :=
  NilZero.string_of_uint (Nat.to_uint n).

Fixpoint repeat_string (c : string) (n : nat) : string :=
  match n with
  | O => ""
  | S n' => c ++ repeat_string c n'
  end.

(** [s.padStart(width, '0')] *)
Definition padStart (width : nat) (s : string) : string :=
  repeat_string "0" (width - String.length s) ++ s.

(** [date.toISOString().slice(0, 10).replace(/-/g, '')] for the years 0000
    to 9999: the UTC calendar date as YYYYMMDD. *)
Definition dateStr (date : Z) : string :=
  let '(y, m, d) := civil_from_days (date / msPerDay) in
  padStart 4 (toString (Z.to_nat y))
  ++ padStart 2 (toString (Z.to_nat m))
  ++ padStart 2 (toString (Z.to_nat d)).

(** [new Date(date.getFullYear(), date.getMonth(), date.getDate())]: the
    local midnight that starts the local calendar day of [date], for a
    host whose local time is UTC plus [tz] milliseconds. *)
Definition localMidnight (tz : Z) (date : Z) : Z :=
  (date + tz) / msPerDay * msPerDay - tz.

(** The body of the hook: count today's bookings, append the count plus
    one, zero-padded to four digits. *)
Definition generateBookingNumber (tz : Z) (date : Z) (bookings : list Booking.t)
  : string :=
  let count :=
    countDocuments
      (fun b => (localMidnight tz date <=? Booking.createdAt b)
                && (Booking.createdAt b <? localMidnight tz date + msPerDay))
      bookings in
  let sequence := padStart 4 (toString (count + 1)) in
  "DC" ++ dateStr date ++ sequence.

(** ** The Payment model (models/Payment.js) *)

Module PaymentStatus.
Inductive t := initiated | pending | success | failed | cancelled | refunded.

Definition eqb (a b : t) : bool :=
  match a, b with
  | initiated, initiated | pending, pending | success, success
  | failed, failed | cancelled, cancelled | refunded, refunded => true
  | _, _ => false
  end.
End PaymentStatus.

Module Refund.
Record t := mk
  { isRefunded : bool;
    refundAmount : option float;
    refundTransactionId : option string;
    refundedAt : option Z;
    refundReason : option string;
    processedBy : option ObjectId }.

(** The schema default: [isRefunded: false], the rest undefined. *)
Definition default : t := mk false None None None None None.
End Refund.

Module PaymentDetails.
Record t := mk
  { razorpayOrderId : string;
    razorpayPaymentId : string;
    razorpaySignature : string }.
End PaymentDetails.

Module Payment.
Record t := mk
  { _id : ObjectId;
    transactionId : string;
    bookingId : ObjectId;
    customerId : ObjectId;
    amount : float;
    currency : string;
    paymentMethod : string;
    gateway : string;
    gatewayOrderId : option string;
    gatewayTransactionId : option string;
    status : PaymentStatus.t;
    paymentDetails : option PaymentDetails.t;
    refund : Refund.t;
    createdAt : Z }.

Definition set_status (s : PaymentStatus.t) (p : t) : t :=
  mk (_id p) (transactionId p) (bookingId p) (customerId p) (amount p)
     (currency p) (paymentMethod p) (gateway p) (gatewayOrderId p)
     (gatewayTransactionId p) s (paymentDetails p) (refund p) (createdAt p).

Definition set_gatewayTransactionId (g : option string) (p : t) : t :=
  mk (_id p) (transactionId p) (bookingId p) (customerId p) (amount p)
     (currency p) (paymentMethod p) (gateway p) (gatewayOrderId p)
     g (status p) (paymentDetails p) (refund p) (createdAt p).

Definition set_paymentDetails (d : option PaymentDetails.t) (p : t) : t :=
  mk (_id p) (transactionId p) (bookingId p) (customerId p) (amount p)
     (currency p) (paymentMethod p) (gateway p) (gatewayOrderId p)
     (gatewayTransactionId p) (status p) d (refund p) (createdAt p).

Definition set_refund (r : Refund.t) (p : t) : t :=
  mk (_id p) (transactionId p) (bookingId p) (customerId p) (amount p)
     (currency p) (paymentMethod p) (gateway p) (gatewayOrderId p)
     (gatewayTransactionId p) (status p) (paymentDetails p) r (createdAt p).

(** [Payment.findById(id)] *)
Definition findById (id : ObjectId) (c : list t) : option t :=
  findOne (fun p => Nat.eqb (_id p) id) c.

(** [payment.save()] of a document that is already stored. *)
Definition save (p : t) (c : list t) : list t :=
  updateOne (fun x => Nat.eqb (_id x) (_id p)) (fun _ => p) c.

(** [paymentSchema.methods.canRefund] *)
Definition canRefund (this : t) : bool :=
  let refundableStatuses := [PaymentStatus.success] in
  let nonRefundableStatuses :=
    [PaymentStatus.refunded; PaymentStatus.failed; PaymentStatus.cancelled] in
  existsb (PaymentStatus.eqb (status this)) refundableStatuses
  && negb (existsb (PaymentStatus.eqb (status this)) nonRefundableStatuses)
  && negb (Refund.isRefunded (refund this)).

(** [paymentSchema.methods.processRefund]: [inl] is the message of the
    [Error] it throws, [inr] the collection after [this.save()]. *)
Definition processRefund (now : Z) (this : t) (refundAmount : float)
    (reason : option string) (processedBy : option ObjectId) (c : list t)
  : string + list t :=
  if negb (canRefund this) then inl "Payment cannot be refunded"
  else if (amount this <? refundAmount)%float
  then inl "Refund amount cannot exceed payment amount"
  else
    let this1 :=
      set_refund
        (Refund.mk true (Some refundAmount) None (Some now) reason processedBy)
        this in
    let this2 :=
      if (amount this <=? refundAmount)%float
      then set_status PaymentStatus.refunded this1
      else this1 in
    (* [this.save()] runs the validator of [refund.refundAmount], [min: 0] *)
    if negb (0 <=? refundAmount)%float
    then inl "Refund amount cannot be negative"
    else inr (save this2 c).
End Payment.

(** ** The payment gateway and the world *)

(** The [options] of [razorpay.orders.create]. *)
Module OrderOptions.
Record t := mk
  { amount : float;
    currency : string;
    receipt : string;
    notes_bookingId : ObjectId;
    notes_customerId : ObjectId }.
End OrderOptions.

Module Order.
Record t := mk
  { id : string;
    amount : float;
    currency : string }.
End Order.

(** The arguments of [razorpay.payments.refund]. *)
Module RefundCall.
Record t := mk
  { paymentId : option string;
    amount : float;
    notes_reason : string }.
End RefundCall.

Module GatewayRefund.
Record t := mk
  { id : string;
    amount : float;
    status : string }.
End GatewayRefund.

(** The Razorpay client.  A call answers or throws ([None]). *)
Module Razorpay.
Record t := mk
  { orders_create : OrderOptions.t -> option Order.t;
    payments_refund : RefundCall.t -> option GatewayRefund.t }.
End Razorpay.

(** The persistent state the handlers act on: the collections, and the
    orders and refunds the gateway has accepted. *)
Module World.
Record t := mk
  { users : list User.t;
    services : list Service.t;
    bookings : list Booking.t;
    payments : list Payment.t;
    gatewayOrders : list OrderOptions.t;
    gatewayRefunds : list RefundCall.t }.

Definition set_bookings (b : list Booking.t) (w : t) : t :=
  mk (users w) (services w) b (payments w) (gatewayOrders w) (gatewayRefunds w).

Definition set_payments (p : list Payment.t) (w : t) : t :=
  mk (users w) (services w) (bookings w) p (gatewayOrders w) (gatewayRefunds w).

Definition add_gatewayOrder (o : OrderOptions.t) (w : t) : t :=
  mk (users w) (services w) (bookings w) (payments w)
     (gatewayOrders w ++ [o]) (gatewayRefunds w).

Definition add_gatewayRefund (r : RefundCall.t) (w : t) : t :=
  mk (users w) (services w) (bookings w) (payments w)
     (gatewayOrders w) (gatewayRefunds w ++ [r]).
End World.

(** What a handler takes from its surroundings: the clock ([new Date()]),
    the [_id] the driver gives to a document it creates, and the offset of
    the host's local time from UTC. *)
Module Env.
Record t := mk
  { now : Z;
    newId : ObjectId;
    tz : Z }.
End Env.

(** ** bookingController *)

Module CreateBookingReq.
Record t := mk
  { services : list ServiceItem.t;
    scheduledDate : Z;
    scheduledTimeSlot : string;
    user : User.t }.
End CreateBookingReq.

Definition timeSlots : list string :=
  ["9:00 AM - 11:00 AM"; "11:00 AM - 1:00 PM";
   "2:00 PM - 4:00 PM"; "4:00 PM - 6:00 PM"].

(** The schema validators that [Booking.create] runs on the fields kept
    here: the required [bookingNumber] (lines 4-8; an absent one is the
    empty string), the [min] bounds, the time-slot enum, and
    [scheduledDate >= new Date()]. *)
Definition Booking_validate (now : Z) (b : Booking.t) : bool :=
  negb (String.eqb (Booking.bookingNumber b) "")
  && forallb
       (fun s => (1 <=? LineItem.quantity s)%float
                 && (0 <=? LineItem.basePrice s)%float
                 && forallb (fun a => (0 <=? price a)%float) (LineItem.addOns s)
                 && (0 <=? LineItem.subtotal s)%float)
       (Booking.services b)
  && (now <=? Booking.scheduledDate b)
  && existsb (String.eqb (Booking.scheduledTimeSlot b)) timeSlots
  && (0 <=? Pricing.subtotal (Booking.pricing b))%float
  && (0 <=? Pricing.tax (Booking.pricing b))%float
  && (0 <=? Pricing.total (Booking.pricing b))%float.

(** [createBooking].  [Booking.create] is given no [bookingNumber]; it
    validates the document, then runs the [pre('save')] hook that
    generates the number, then inserts; [bookingNumber] carries a unique
    index.  A rejection at any of these steps is answered by the [catch]
    block. *)
Definition createBooking (env : Env.t) (req : CreateBookingReq.t) (w : World.t)
  : Response Booking.t * World.t :=
  match computePricing (World.services w) (CreateBookingReq.services req) with
  | inl (ServiceNotFoundOrInactive id) =>
      (fail 400 ("Service " ++ toString id ++ " not found or inactive"), w)
  | inr (validatedServices, pricing) =>
      let doc :=
        Booking.mk (Env.newId env) ""
          (User._id (CreateBookingReq.user req))
          validatedServices
          (CreateBookingReq.scheduledDate req)
          (CreateBookingReq.scheduledTimeSlot req)
          pricing BookingStatus.pending Cancellation.default None
          (Env.now env) in
      if negb (Booking_validate (Env.now env) doc)
      then (fail 500 "Failed to create booking", w)
      else
        let bookingNumber :=
          generateBookingNumber (Env.tz env) (Env.now env) (World.bookings w) in
        let booking :=
          Booking.mk (Booking._id doc) bookingNumber (Booking.customerId doc)
            (Booking.services doc) (Booking.scheduledDate doc)
            (Booking.scheduledTimeSlot doc) (Booking.pricing doc)
            (Booking.status doc) (Booking.cancellation doc)
            (Booking.payment doc) (Booking.createdAt doc) in
        if existsb (fun b => String.eqb (Booking.bookingNumber b) bookingNumber)
             (World.bookings w)
        then (fail 500 "Failed to create booking", w)
        else (ok 201 "Booking created successfully" booking,
              World.set_bookings (World.bookings w ++ [booking]) w)
  end.

(** *** cancelBooking *)

Module CancelBookingReq.
Record t := mk
  { params_id : ObjectId;
    reason : option string;
    user : User.t }.
End CancelBookingReq.

Definition cancelBooking (env : Env.t) (req : CancelBookingReq.t) (w : World.t)
  : Response unit * World.t :=
  match Booking.findById (CancelBookingReq.params_id req) (World.bookings w) with
  | None => (fail 404 "Booking not found", w)
  | Some booking =>
      let user := CancelBookingReq.user req in
      if Role_eqb (User.role user) customer
         && negb (Nat.eqb (Booking.customerId booking) (User._id user))
      then (fail 403 "Not authorized to cancel this booking", w)
      else if negb (canCancel (Env.now env) booking)
      then (fail 400 "Booking cannot be cancelled at this time", w)
      else
        let booking' :=
          Booking.set_cancellation
            (Cancellation.mk true (Some (User._id user)) (Some (Env.now env))
               (Some (or_default (CancelBookingReq.reason req)
                        "Cancelled by user"))
               None)
            (Booking.set_status BookingStatus.cancelled booking) in
        (mkResponse 200 "Booking cancelled successfully" None,
         World.set_bookings
           (updateOne (fun b => Nat.eqb (Booking._id b) (Booking._id booking'))
              (fun _ => booking') (World.bookings w))
           w)
  end.

(** ** paymentController *)

Module CreateOrderReq.
Record t := mk
  { bookingId : ObjectId;
    amount : float;
    user : User.t }.
End CreateOrderReq.

Module CreateOrderData.
Record t := mk
  { orderId : string;
    amount : float;
    currency : string;
    paymentId : ObjectId }.
End CreateOrderData.

Module VerifyPaymentReq.
Record t := mk
  { razorpay_order_id : string;
    razorpay_payment_id : string;
    razorpay_signature : string;
    bookingId : ObjectId;
    user : User.t }.
End VerifyPaymentReq.

Module VerifyPaymentData.
Record t := mk
  { paymentId : ObjectId;
    transactionId : string }.
End VerifyPaymentData.

Module GetPaymentReq.
Record t := mk
  { params_id : ObjectId;
    user : User.t }.
End GetPaymentReq.

(** A payment after [.populate('bookingId', ...).populate('customerId', ...)]:
    each reference is replaced by the document it names, or by [null]. *)
Module PopulatedPayment.
Record t := mk
  { payment : Payment.t;
    bookingId : option Booking.t;
    customerId : option User.t }.
End PopulatedPayment.

Module GetBookingPaymentsReq.
Record t := mk
  { params_bookingId : ObjectId;
    user : User.t }.
End GetBookingPaymentsReq.

Module ProcessRefundReq.
Record t := mk
  { params_id : ObjectId;
    amount : float;
    reason : option string;
    user : User.t }.
End ProcessRefundReq.

Module ProcessRefundData.
Record t := mk
  { refundId : string;
    amount : float;
    status : string }.
End ProcessRefundData.

(** [payload.payment.entity] and [payload.refund.entity] of a webhook
    body. *)
Module PaymentEntity.
Record t := mk
  { id : string;
    order_id : string }.
End PaymentEntity.

Module RefundEntity.
Record t := mk
  { id : string;
    payment_id : string;
    amount : float }.
End RefundEntity.

(** [req.body] of a webhook delivery; [payload.payment] and
    [payload.refund] may be absent. *)
Module WebhookBody.
Record t := mk
  { event : string;
    payload_payment : option PaymentEntity.t;
    payload_refund : option RefundEntity.t }.
End WebhookBody.

Module WebhookReq.
Record t := mk
  { x_razorpay_signature : option string;
    body : WebhookBody.t }.
End WebhookReq.

Section PaymentController.

(** [crypto.createHmac('sha256', key).update(msg).digest('hex')] *)
Variable hmac_sha256_hex : string -> string -> string.

(** [JSON.stringify(req.body)] *)
Variable JSON_stringify : WebhookBody.t -> string.

(** [process.env.RAZORPAY_KEY_SECRET], [process.env.RAZORPAY_WEBHOOK_SECRET];
    [createHmac] throws on an undefined key. *)
Variable RAZORPAY_KEY_SECRET : option string.
Variable RAZORPAY_WEBHOOK_SECRET : option string.

(** The module-level [razorpay], [null] when the keys are not configured. *)
Variable razorpay : option Razorpay.t.

(** [createOrder] *)
Definition createOrder (env : Env.t) (req : CreateOrderReq.t) (w : World.t)
  : Response CreateOrderData.t * World.t :=
  let bookingId := CreateOrderReq.bookingId req in
  let amount := CreateOrderReq.amount req in
  let user := CreateOrderReq.user req in
  match Booking.findById bookingId (World.bookings w) with
  | None => (fail 404 "Booking not found", w)
  | Some booking =>
      if negb (Nat.eqb (Booking.customerId booking) (User._id user))
      then (fail 403 "Not authorized to pay for this booking", w)
      else if negb (BookingStatus.eqb (Booking.status booking)
                      BookingStatus.confirmed)
      then (fail 400 "Booking must be confirmed before payment", w)
      else
        let existingPayment :=
          findOne (fun p => Nat.eqb (Payment.bookingId p) bookingId)
            (World.payments w) in
        if match existingPayment with
           | Some p => PaymentStatus.eqb (Payment.status p) PaymentStatus.success
           | None => false
           end
        then (fail 400 "Payment already completed for this booking", w)
        else
          let options :=
            OrderOptions.mk (amount * 100)%float "INR"
              ("booking_" ++ Booking.bookingNumber booking)
              bookingId (User._id user) in
          match razorpay with
          | None => (fail 500 "Failed to create payment order", w)
          | Some rzp =>
              match Razorpay.orders_create rzp options with
              | None => (fail 500 "Failed to create payment order", w)
              | Some order =>
                  let w1 := World.add_gatewayOrder options w in
                  let payment :=
                    Payment.mk (Env.newId env) (Order.id order) bookingId
                      (User._id user) amount "INR" "razorpay" "razorpay"
                      (Some (Order.id order)) None PaymentStatus.initiated
                      None Refund.default (Env.now env) in
                  (* Payment.create: [amount] has [min: 0], [transactionId]
                     a unique index *)
                  if negb (0 <=? amount)%float
                     || existsb (fun p => String.eqb (Payment.transactionId p)
                                            (Order.id order))
                          (World.payments w1)
                  then (fail 500 "Failed to create payment order", w1)
                  else
                    (ok 200 "Payment order created successfully"
                       (CreateOrderData.mk (Order.id order) (Order.amount order)
                          (Order.currency order) (Payment._id payment)),
                     World.set_payments (World.payments w1 ++ [payment]) w1)
              end
          end
  end.

(** The update document of [verifyPayment]'s [Payment.findOneAndUpdate]. *)
Definition verified (req : VerifyPaymentReq.t) (p : Payment.t) : Payment.t :=
  Payment.set_paymentDetails
    (Some (PaymentDetails.mk (VerifyPaymentReq.razorpay_order_id req)
             (VerifyPaymentReq.razorpay_payment_id req)
             (VerifyPaymentReq.razorpay_signature req)))
    (Payment.set_status PaymentStatus.success
       (Payment.set_gatewayTransactionId
          (Some (VerifyPaymentReq.razorpay_payment_id req)) p)).

(** The update document of [verifyPayment]'s [Booking.findByIdAndUpdate],
    once its [payment] is cast. *)
Definition paid (payment : ObjectId) (b : Booking.t) : Booking.t :=
  Booking.set_payment (Some payment)
    (Booking.set_status BookingStatus.assigned b).

(** [verifyPayment].  The Payment is updated first; the update of the
    booking is cast before its query runs, and a failed cast is answered by
    the [catch] block, with the Payment already written. *)
Definition verifyPayment (req : VerifyPaymentReq.t) (w : World.t)
  : Response VerifyPaymentData.t * World.t :=
  let razorpay_order_id := VerifyPaymentReq.razorpay_order_id req in
  let razorpay_payment_id := VerifyPaymentReq.razorpay_payment_id req in
  let razorpay_signature := VerifyPaymentReq.razorpay_signature req in
  let bookingId := VerifyPaymentReq.bookingId req in
  match RAZORPAY_KEY_SECRET with
  | None => (fail 500 "Payment verification failed", w)
  | Some secret =>
      let sign := razorpay_order_id ++ "|" ++ razorpay_payment_id in
      let expectedSign := hmac_sha256_hex secret sign in
      if negb (String.eqb razorpay_signature expectedSign)
      then (fail 400 "Payment verification failed", w)
      else
        let filter p := String.eqb (Payment.transactionId p) razorpay_order_id in
        match findOne filter (World.payments w) with
        | None => (fail 404 "Payment record not found", w)
        | Some found =>
            let payment := verified req found in
            let w1 :=
              World.set_payments
                (updateOne filter (verified req) (World.payments w)) w in
            match Booking.castPayment
                    (PaymentRef.mk (Payment._id payment) "completed" "razorpay")
            with
            | None => (fail 500 "Payment verification failed", w1)
            | Some ref =>
                let w2 :=
                  World.set_bookings
                    (Booking.findByIdAndUpdate bookingId (paid ref)
                       (World.bookings w1))
                    w1 in
                (ok 200 "Payment verified successfully"
                   (VerifyPaymentData.mk (Payment._id payment)
                      razorpay_payment_id),
                 w2)
            end
        end
  end.

(** [res.json({ ..., data: { payment } })] of [getPayment].  The populated
    booking is serialised with its virtuals ([toJSON: { virtuals: true }]);
    it was loaded with [bookingNumber] and [scheduledDate] only, so
    [this.services] is undefined in the [estimatedDuration] getter, which
    throws.  A Payment whose booking is not stored has [null] there and is
    serialised. *)
Definition sendPayment (payment : PopulatedPayment.t)
  : Response PopulatedPayment.t :=
  match PopulatedPayment.bookingId payment with
  | Some _ => fail 500 "Failed to retrieve payment details"
  | None => ok 200 "Payment details retrieved successfully" payment
  end.

(** [getPayment] *)
Definition getPayment (req : GetPaymentReq.t) (w : World.t)
  : Response PopulatedPayment.t :=
  let user := GetPaymentReq.user req in
  match Payment.findById (GetPaymentReq.params_id req) (World.payments w) with
  | None => fail 404 "Payment not found"
  | Some p =>
      let payment :=
        PopulatedPayment.mk p
          (Booking.findById (Payment.bookingId p) (World.bookings w))
          (findOne (fun u => Nat.eqb (User._id u) (Payment.customerId p))
             (World.users w)) in
      if Role_eqb (User.role user) customer
      then
        match PopulatedPayment.customerId payment with
        | None =>
            (* [payment.customerId._id] on [null] throws *)
            fail 500 "Failed to retrieve payment details"
        | Some c =>
            if negb (Nat.eqb (User._id c) (User._id user))
            then fail 403 "Not authorized to view this payment"
            else sendPayment payment
        end
      else sendPayment payment
  end.

(** [getBookingPayments] *)
Definition getBookingPayments (req : GetBookingPaymentsReq.t) (w : World.t)
  : Response (list Payment.t) :=
  let payments :=
    sort_desc Payment.createdAt
      (find (fun p => Nat.eqb (Payment.bookingId p)
                        (GetBookingPaymentsReq.params_bookingId req))
         (World.payments w)) in
  ok 200 "Booking payments retrieved successfully" payments.

(** [processRefund], the handler behind [POST /:id/refund]. *)
Definition processRefund (env : Env.t) (req : ProcessRefundReq.t) (w : World.t)
  : Response ProcessRefundData.t * World.t :=
  let amount := ProcessRefundReq.amount req in
  let reason := ProcessRefundReq.reason req in
  match Payment.findById (ProcessRefundReq.params_id req) (World.payments w) with
  | None => (fail 404 "Payment not found", w)
  | Some payment =>
      if negb (PaymentStatus.eqb (Payment.status payment) PaymentStatus.success)
      then (fail 400 "Only successful payments can be refunded", w)
      else
        let call :=
          RefundCall.mk (Payment.gatewayTransactionId payment)
            (amount * 100)%float
            (or_default reason "Customer requested refund") in
        match razorpay with
        | None => (fail 500 "Refund processing failed", w)
        | Some rzp =>
            match Razorpay.payments_refund rzp call with
            | None => (fail 500 "Refund processing failed", w)
            | Some refund =>
                let w1 := World.add_gatewayRefund call w in
                let payment' :=
                  Payment.set_status PaymentStatus.refunded
                    (Payment.set_refund
                       (Refund.mk true (Some amount)
                          (Some (GatewayRefund.id refund)) (Some (Env.now env))
                          reason None)
                       payment) in
                (* [payment.save()] runs the validator of
                   [refund.refundAmount], [min: 0] *)
                if negb (0 <=? amount)%float
                then (fail 500 "Refund processing failed", w1)
                else
                let w2 :=
                  World.set_payments
                    (Payment.save payment' (World.payments w1)) w1 in
                let w3 :=
                  World.set_bookings
                    (Booking.findByIdAndUpdate (Payment.bookingId payment')
                       (fun b =>
                          Booking.set_cancellation
                            (Cancellation.mk true None (Some (Env.now env))
                               None (Some amount))
                            (Booking.set_status BookingStatus.refunded b))
                       (World.bookings w2))
                    w2 in
                (ok 200 "Refund processed successfully"
                   (ProcessRefundData.mk (GatewayRefund.id refund)
                      (GatewayRefund.amount refund / 100)%float
                      (GatewayRefund.status refund)),
                 w3)
            end
        end
  end.

(** The three updates of the webhook's [switch]. *)
Definition captured (e : PaymentEntity.t) (p : Payment.t) : Payment.t :=
  Payment.set_gatewayTransactionId (Some (PaymentEntity.id e))
    (Payment.set_status PaymentStatus.success p).

Definition failed (p : Payment.t) : Payment.t :=
  Payment.set_status PaymentStatus.failed p.

Definition refund_processed (now : Z) (e : RefundEntity.t) (p : Payment.t)
  : Payment.t :=
  let r := Payment.refund p in
  Payment.set_refund
    (Refund.mk true (Some (RefundEntity.amount e / 100)%float)
       (Some (RefundEntity.id e)) (Some now)
       (Refund.refundReason r) (Refund.processedBy r))
    p.

(** [handleRazorpayWebhook] *)
Definition handleRazorpayWebhook (env : Env.t) (req : WebhookReq.t)
    (w : World.t) : Response unit * World.t :=
  match RAZORPAY_WEBHOOK_SECRET with
  | None => (send 500 "Internal server error", w)
  | Some secret =>
      let signature := WebhookReq.x_razorpay_signature req in
      let expectedSignature :=
        hmac_sha256_hex secret (JSON_stringify (WebhookReq.body req)) in
      if negb match signature with
              | Some s => String.eqb s expectedSignature
              | None => false
              end
      then (send 400 "Invalid signature", w)
      else
        let event := WebhookBody.event (WebhookReq.body req) in
        match WebhookBody.payload_payment (WebhookReq.body req) with
        | None => (send 500 "Internal server error", w)
        | Some paymentEntity =>
            let byOrder p :=
              String.eqb (Payment.transactionId p)
                (PaymentEntity.order_id paymentEntity) in
            if String.eqb event "payment.captured"
            then (send 200 "OK",
                  World.set_payments
                    (updateOne byOrder (captured paymentEntity)
                       (World.payments w)) w)
            else if String.eqb event "payment.failed"
            then (send 200 "OK",
                  World.set_payments
                    (updateOne byOrder failed (World.payments w)) w)
            else if String.eqb event "refund.processed"
            then
              match WebhookBody.payload_refund (WebhookReq.body req) with
              | None => (send 500 "Internal server error", w)
              | Some refundEntity =>
                  (send 200 "OK",
                   World.set_payments
                     (updateOne
                        (fun p =>
                           match Payment.gatewayTransactionId p with
                           | Some g =>
                               String.eqb g (RefundEntity.payment_id refundEntity)
                           | None => false
                           end)
                        (refund_processed (Env.now env) refundEntity)
                        (World.payments w)) w)
              end
            else (send 200 "OK", w)
        end
  end.

End PaymentController.

(** * Specification vocabulary

    The words of the specification, defined on their own so that the
    handlers can be compared with them. *)

(** ** Pricing *)

(** A valid line item: its service exists, is active, and the quantity is
    at least one. *)
Definition valid_item (catalog : list Service.t) (item : ServiceItem.t) : Prop :=
  exists s,
    Service_findById catalog (ServiceItem.serviceId item) = Some s
    /\ Service.isActive s = true
    /\ (1 <=? ServiceItem.quantity item)%float = true.











(** ** Signatures and lookups *)

(** The signature the handler recomputes:
    HMAC-SHA256 of [orderId + '|' + paymentId] under the key secret. *)
Definition expectedSign (hmac_sha256_hex : string -> string -> string)
    (secret : string) (req : VerifyPaymentReq.t) : string :=
  hmac_sha256_hex secret
    (VerifyPaymentReq.razorpay_order_id req ++ "|"
     ++ VerifyPaymentReq.razorpay_payment_id req).

(** The Payment record of the order id. *)
Definition paymentOfOrder (req : VerifyPaymentReq.t) (w : World.t)
  : option Payment.t :=
  findOne
    (fun p => String.eqb (Payment.transactionId p)
                (VerifyPaymentReq.razorpay_order_id req))
    (World.payments w).

(** The delivery carries the HMAC of its body under the webhook secret. *)
Definition validly_signed (hmac_sha256_hex : string -> string -> string)
    (JSON_stringify : WebhookBody.t -> string) (secret : string)
    (req : WebhookReq.t) : Prop :=
  WebhookReq.x_razorpay_signature req
  = Some (hmac_sha256_hex secret (JSON_stringify (WebhookReq.body req))).

(** The Payment a payment event is about: the one stored under the
    event's order id. *)
Definition paymentOfEvent (e : PaymentEntity.t) (w : World.t)
  : option Payment.t :=
  findOne
    (fun p => String.eqb (Payment.transactionId p) (PaymentEntity.order_id e))
    (World.payments w).

(** ** Payments of a booking *)

(** A successful Payment is stored for the booking. *)
Definition paidFor (bookingId : ObjectId) (w : World.t) : Prop :=
  exists p,
    In p (World.payments w)
    /\ Payment.bookingId p = bookingId
    /\ Payment.status p = PaymentStatus.success.

(** The number of successful Payments stored for the booking. *)
Definition successes (bookingId : ObjectId) (w : World.t) : nat :=
  countDocuments
    (fun p => Nat.eqb (Payment.bookingId p) bookingId
              && PaymentStatus.eqb (Payment.status p) PaymentStatus.success)
    (World.payments w).

(** C5 as the specification states it: a [payment.failed] delivery for a
    Payment that is already in status success leaves it in status
    success. *)
Definition failed_after_success_ignored : Prop :=
  forall (hmac_sha256_hex : string -> string -> string)
         (JSON_stringify : WebhookBody.t -> string) (secret : string)
         (env : Env.t) (req : WebhookReq.t) (e : PaymentEntity.t)
         (w : World.t) (p : Payment.t),
    validly_signed hmac_sha256_hex JSON_stringify secret req ->
    WebhookBody.event (WebhookReq.body req) = "payment.failed" ->
    WebhookBody.payload_payment (WebhookReq.body req) = Some e ->
    paymentOfEvent e w = Some p ->
    Payment.status p = PaymentStatus.success ->
    exists p',
      paymentOfEvent e
        (snd (handleRazorpayWebhook hmac_sha256_hex JSON_stringify (Some secret)
                env req w))
      = Some p'
      /\ Payment.status p' = PaymentStatus.success.

(** * Concrete scenes

    Two customers and an admin, one confirmed booking per customer, and
    the Payment that [createOrder] stored for the first booking.  The
    keyed hash and the serializer are stand-ins that join their inputs;
    the theorems hold for any [hmac_sha256_hex] and [JSON_stringify]. *)

(** The single item of the specification's example: base price 1000,
    quantity 1, no add-ons. *)
Definition deepClean : Service.t := Service.mk 7%nat "Deep Cleaning" true 1000.


(** A confirmed booking scheduled for 2024-01-15 12:00 UTC, and a
    cancellation request by its owner at 10:00 sharp. *)
Definition booking_noon : Booking.t :=
  Booking.mk 1%nat "DC202401100001" 10%nat [] 1705320000000
    "11:00 AM - 1:00 PM" (Pricing.mk 1000 180 1180) BookingStatus.confirmed
    Cancellation.default None 1704880800000.

Definition world_noon : World.t := World.mk [] [] [booking_noon] [] [] [].

Definition toy_hmac (key msg : string) : string := key ++ ":" ++ msg.

Definition alice : User.t := User.mk 10%nat "alice@example.in" customer.
Definition bob : User.t := User.mk 20%nat "bob@example.in" customer.
Definition root : User.t := User.mk 30%nat "admin@example.in" admin.

Definition booking_alice : Booking.t :=
  Booking.mk 1%nat "DC202401150001" 10%nat [] 1705572000000
    "9:00 AM - 11:00 AM" (Pricing.mk 1000 180 1180) BookingStatus.confirmed
    Cancellation.default None 1705312800000.

Definition booking_bob : Booking.t :=
  Booking.mk 2%nat "DC202401150002" 20%nat [] 1705572000000
    "2:00 PM - 4:00 PM" (Pricing.mk 500 90 590) BookingStatus.confirmed
    Cancellation.default None 1705312900000.

Definition payment_A : Payment.t :=
  Payment.mk 5%nat "order_A" 1%nat 10%nat 1180 "INR" "razorpay" "razorpay"
    (Some "order_A") None PaymentStatus.initiated None Refund.default
    1705313000000.

Definition scene : World.t :=
  World.mk [alice; bob; root] [deepClean] [booking_alice; booking_bob]
    [payment_A] [] [].

(** Alice confirms her order [order_A], naming the booking [bookingId]. *)
Definition verify_A (signature : string) (bookingId : ObjectId)
  : VerifyPaymentReq.t :=
  VerifyPaymentReq.mk "order_A" "pay_1" signature bookingId alice.

Definition toy_json (b : WebhookBody.t) : string :=
  WebhookBody.event b ++ "#"
  ++ match WebhookBody.payload_payment b with
     | Some e => PaymentEntity.id e ++ "," ++ PaymentEntity.order_id e
     | None => ""
     end.

(** A delivery about gateway payment [pay] of order [order], signed with
    the webhook secret. *)
Definition delivery (event pay order : string) : WebhookReq.t :=
  let body := WebhookBody.mk event (Some (PaymentEntity.mk pay order)) None in
  WebhookReq.mk (Some (toy_hmac "whsec" (toy_json body))) body.

Definition clock (now : Z) : Env.t := Env.mk now 0%nat 0.

(** The scene after Alice's payment went through. *)
Definition payment_A_paid : Payment.t :=
  Payment.set_status PaymentStatus.success
    (Payment.set_gatewayTransactionId (Some "pay_1") payment_A).

Definition scene_paid : World.t :=
  World.mk [alice; bob; root] [deepClean] [booking_alice; booking_bob]
    [payment_A_paid] [] [].

(** A gateway that answers every order request with the given id. *)
Definition gateway (orderId refundId : string) : Razorpay.t :=
  Razorpay.mk
    (fun o => Some (Order.mk orderId (OrderOptions.amount o)
                      (OrderOptions.currency o)))
    (fun r => Some (GatewayRefund.mk refundId (RefundCall.amount r) "processed")).

(** Alice's booking, still confirmed, with two Payments: the attempt she
    abandoned and the one the gateway captured. *)
Definition payment_B_paid : Payment.t :=
  Payment.mk 6%nat "order_B" 1%nat 10%nat 1180 "INR" "razorpay" "razorpay"
    (Some "order_B") (Some "pay_2") PaymentStatus.success None Refund.default
    1705313400000.

Definition scene_second_attempt_paid : World.t :=
  World.mk [alice; bob; root] [deepClean] [booking_alice; booking_bob]
    [payment_A; payment_B_paid] [] [].

Definition payment_C : Payment.t :=
  Payment.mk 7%nat "order_C" 1%nat 10%nat 1180 "INR" "razorpay" "razorpay"
    (Some "order_C") None PaymentStatus.initiated None Refund.default
    1705313500000.

Definition refund_5000 : ProcessRefundReq.t :=
  ProcessRefundReq.mk 5%nat 5000 (Some "goodwill") root.

(** An empty booking collection, and two creation requests of the same
    day, 2024-01-15, a few seconds apart. *)
Definition scene_morning : World.t :=
  World.mk [alice; bob; root] [deepClean] [] [] [] [].

Definition request_alice : Env.t * CreateBookingReq.t :=
  (Env.mk 1705312800000 1%nat 0,
   CreateBookingReq.mk [ServiceItem.mk 7%nat 1 None] 1705572000000
     "9:00 AM - 11:00 AM" alice).

Definition request_bob : Env.t * CreateBookingReq.t :=
  (Env.mk 1705312805000 2%nat 0,
   CreateBookingReq.mk [ServiceItem.mk 7%nat 2 None] 1705572000000
     "2:00 PM - 4:00 PM" bob).

(** * The rest of the models and controllers

    The functions of the same files that the properties above do not
    use. *)

(** ** Payment: the [isFullyRefunded] virtual (models/Payment.js) *)

(** [this.refund.isRefunded && this.refund.refundAmount >= this.amount];
    an undefined [refundAmount] compares false. *)
Definition isFullyRefunded (this : Payment.t) : bool :=
  Refund.isRefunded (Payment.refund this)
  && match Refund.refundAmount (Payment.refund this) with
     | Some r => (Payment.amount this <=? r)%float
     | None => false
     end.

(** ** Booking: staff assignments, and the read handlers that use them
    (models/Booking.js, bookingController) *)

Module StaffAssignment.
Record t := mk
  { staffId : ObjectId;
    assignedAt : Z;
    role : string }.
End StaffAssignment.

(** A booking document with its [assignedStaff] array. *)
Module BookingDoc.
Record t := mk
  { core : Booking.t;
    assignedStaff : list StaffAssignment.t }.
End BookingDoc.

(** [User.findById], as [populate] uses it. *)
Definition User_findById (users : list User.t) (id : ObjectId) : option User.t :=
  findOne (fun u => Nat.eqb (User._id u) id) users.

(** A booking after [.populate('customerId', ...)] and
    [.populate('assignedStaff.staffId', ...)]: each reference is replaced
    by the user it names, or by [null].  ([.populate('payment')] is left
    out: no handler stores a [payment].) *)
Module PopulatedBooking.
Record t := mk
  { booking : BookingDoc.t;
    customerId : option User.t;
    staffId : list (option User.t) }.
End PopulatedBooking.

Definition populateBooking (users : list User.t) (b : BookingDoc.t)
  : PopulatedBooking.t :=
  PopulatedBooking.mk b
    (User_findById users (Booking.customerId (BookingDoc.core b)))
    (map (fun a => User_findById users (StaffAssignment.staffId a))
       (BookingDoc.assignedStaff b)).

(** [booking.assignedStaff.some(staff => staff.staffId._id.toString() ===
    req.user._id.toString())] on the populated array: [None] is the
    [TypeError] of reading [_id] of [null], which [some] meets before it
    finds a match. *)
Fixpoint someStaffIs (id : ObjectId) (staff : list (option User.t))
  : option bool :=
  match staff with
  | [] => Some false
  | None :: _ => None
  | Some u :: rest => if Nat.eqb (User._id u) id then Some true
                      else someStaffIs id rest
  end.

Module GetBookingReq.
Record t := mk
  { params_id : ObjectId;
    user : User.t }.
End GetBookingReq.

(** [getBooking] *)
Definition getBooking (users : list User.t) (bookings : list BookingDoc.t)
    (req : GetBookingReq.t) : Response PopulatedBooking.t :=
  let user := GetBookingReq.user req in
  match findOne (fun b => Nat.eqb (Booking._id (BookingDoc.core b))
                            (GetBookingReq.params_id req)) bookings with
  | None => fail 404 "Booking not found"
  | Some found =>
      let booking := populateBooking users found in
      let customerCheck : option bool :=
        if Role_eqb (User.role user) customer
        then match PopulatedBooking.customerId booking with
             | None => None
             | Some c => Some (negb (Nat.eqb (User._id c) (User._id user)))
             end
        else Some false in
      match customerCheck with
      | None => fail 500 "Failed to retrieve booking"
      | Some true => fail 403 "Not authorized to view this booking"
      | Some false =>
          let staffCheck : option bool :=
            if Role_eqb (User.role user) staff
            then match someStaffIs (User._id user)
                         (PopulatedBooking.staffId booking) with
                 | None => None
                 | Some b => Some (negb b)
                 end
            else Some false in
          match staffCheck with
          | None => fail 500 "Failed to retrieve booking"
          | Some true => fail 403 "Not authorized to view this booking"
          | Some false => ok 200 "Booking retrieved successfully" booking
          end
      end
  end.

(** [.sort({ key: 1 })]: stable insertion sort, smallest key first. *)
Fixpoint insert_asc {A : Type} (key : A -> Z) (d : A) (c : list A) : list A :=
  match c with
  | [] => [d]
  | x :: c' => if key d <? key x then d :: x :: c' else x :: insert_asc key d c'
  end.

Definition sort_asc {A : Type} (key : A -> Z) (c : list A) : list A :=
  fold_right (insert_asc key) [] c.

Module UpcomingReq.
(** [query_hours] is [parseInt(req.query.hours)], [None] when it is
    [NaN]. *)
Record t := mk
  { query_hours : option Z;
    user : User.t }.
End UpcomingReq.

(** [parseInt(s) || dflt]: [NaN] and 0 are falsy. *)
Definition parsed_or (n : option Z) (dflt : Z) : Z :=
  match n with
  | Some 0 | None => dflt
  | Some v => v
  end.

(** The [filter] object of [getUpcomingBookings]. *)
Definition upcomingFilter (now : Z) (req : UpcomingReq.t) (b : BookingDoc.t)
  : bool :=
  let hours := parsed_or (UpcomingReq.query_hours req) 24 in
  let futureDate := now + hours * 60 * 60 * 1000 in
  let user := UpcomingReq.user req in
  (Booking.scheduledDate (BookingDoc.core b) <=? futureDate)
  && includes [BookingStatus.confirmed; BookingStatus.assigned]
       (Booking.status (BookingDoc.core b))
  && match User.role user with
     | customer =>
         Nat.eqb (Booking.customerId (BookingDoc.core b)) (User._id user)
     | staff =>
         existsb (fun a => Nat.eqb (StaffAssignment.staffId a) (User._id user))
           (BookingDoc.assignedStaff b)
     | admin => true
     end.

(** [getUpcomingBookings], for a [futureDate] that is a valid [Date]
    (within 8.64e15 ms of the epoch); what the query does with an invalid
    one is Mongoose's casting, which is not part of the source. *)
Definition getUpcomingBookings (now : Z) (users : list User.t)
    (bookings : list BookingDoc.t) (req : UpcomingReq.t)
  : Response (list (BookingDoc.t * option User.t)) :=
  let found :=
    sort_asc (fun b => Booking.scheduledDate (BookingDoc.core b))
      (find (upcomingFilter now req) bookings) in
  ok 200 "Upcoming bookings retrieved successfully"
    (map (fun b => (b, User_findById users
                         (Booking.customerId (BookingDoc.core b))))
       found).

(** [updateBooking], lines 218-234: the fields a requester may write, and
    the part of the body that passes. *)
Definition allowedFields (role : Role) (status : BookingStatus.t)
  : list string :=
  ((if Role_eqb role customer
       && includes [BookingStatus.pending; BookingStatus.confirmed] status
    then ["scheduledDate"; "scheduledTimeSlot"; "specialInstructions";
          "serviceAddress"]
    else [])
   ++ (if Role_eqb role admin || Role_eqb role staff
       then ["status"; "assignedStaff"; "completion"]
       else []))%list.

(** [Object.keys(req.body).forEach(key => { if (allowedFields.includes(key))
    updateData[key] = req.body[key] })], the body being its entries in key
    order. *)
Definition updateData {V : Type} (role : Role) (status : BookingStatus.t)
    (body : list (string * V)) : list (string * V) :=
  List.filter
    (fun kv => existsb (String.eqb (fst kv)) (allowedFields role status))
    body.

(** ** Service: images (models/Service.js) *)

Module Image.
Record t := mk
  { url : string;
    alt : option string;
    isPrimary : bool }.
End Image.

(** [this.images.forEach((img, index) => { img.isPrimary = index === 0 })] *)
Fixpoint markFirstPrimary (index : nat) (images : list Image.t) : list Image.t :=
  match images with
  | [] => []
  | img :: rest =>
      Image.mk (Image.url img) (Image.alt img) (Nat.eqb index 0)
      :: markFirstPrimary (S index) rest
  end.

(** The [pre('save')] hook that keeps one primary image; [isModified] is
    [this.isModified('images')]. *)
Definition ensureOnePrimary (isModified : bool) (images : list Image.t)
  : list Image.t :=
  if isModified
  then
    let primaryImages := List.filter Image.isPrimary images in
    if (1 <? List.length primaryImages)%nat
    then markFirstPrimary 0 images
    else images
  else images.

(** The [primaryImage] virtual:
    [this.images.find(img => img.isPrimary) || this.images[0]]. *)
Definition primaryImage (images : list Image.t) : option Image.t :=
  match findOne Image.isPrimary images with
  | Some img => Some img
  | None => hd_error images
  end.

(** ** Coupon (models/Coupon.js) *)

Inductive DiscountType := percentage | fixed.

Module Coupon.
Record t := mk
  { code : string;
    discountType : DiscountType;
    discountValue : Q;
    minimumOrderValue : Q;
    maximumDiscount : option Q;
    usageLimit : option Z;
    usageCount : Z;
    validFrom : Z;
    validUntil : Z;
    isActive : bool }.

(** The [isExpired] virtual, [now] being [new Date()]. *)
Definition isExpired (now : Z) (this : t) : bool := validUntil this <? now.

(** [!this.usageLimit || this.usageCount < this.usageLimit]: an absent
    limit and a limit of 0 are both falsy. *)
Definition underLimit (this : t) : bool :=
  match usageLimit this with
  | None | Some 0 => true
  | Some l => usageCount this <? l
  end.

(** The [isValid] virtual. *)
Definition isValid (now : Z) (this : t) : bool :=
  isActive this && (validFrom this <=? now) && (now <=? validUntil this)
  && underLimit this.

(** [couponSchema.statics.findValidCoupon].  The filter literal names
    [$or] twice; the second entry replaces the first, so the query holds
    the code, the active flag, the window and the minimum-order clause.
    [toUpperCase] is [String.prototype.toUpperCase]. *)
Definition findValidCoupon (toUpperCase : string -> string) (now : Z)
    (coupons : list t) (code : string) (orderTotal : Q) : option t :=
  findOne
    (fun c =>
       String.eqb (Coupon.code c) (toUpperCase code)
       && isActive c
       && (validFrom c <=? now)
       && (now <=? validUntil c)
       && (Qle_bool (minimumOrderValue c) orderTotal
           || Qeq_bool (minimumOrderValue c) 0))
    coupons.
End Coupon.

(** ** Reading a sequence suffix back

    The decimal value of a string of digits, as [parseInt] gives it. *)
Definition parseDigits (s : string) : option nat :=
  option_map Nat.of_uint (NilZero.uint_of_string s).

(** The count the [pre('save')] hook takes: the bookings created on the
    host's local day of [date]. *)
Definition countToday (tz : Z) (date : Z) (bookings : list Booking.t) : nat :=
  countDocuments
    (fun b => (localMidnight tz date <=? Booking.createdAt b)
              && (Booking.createdAt b <? localMidnight tz date + msPerDay))
    bookings.

(** The [_id]s of the stored Payments and Bookings, in collection order. *)
Definition ids (w : World.t) : list ObjectId * list ObjectId :=
  (map Payment._id (World.payments w), map Booking._id (World.bookings w)).

(** ** Further scenes *)

(** A signed delivery that reports gateway refund [rfnd] of [paise] on
    gateway payment [pay]. *)
Definition refund_delivery (rfnd pay : string) (paise : float) : WebhookReq.t :=
  let body :=
    WebhookBody.mk "refund.processed" (Some (PaymentEntity.mk pay "order_A"))
      (Some (RefundEntity.mk rfnd pay paise)) in
  WebhookReq.mk (Some (toy_hmac "whsec" (toy_json body))) body.

(** ** Service references *)

(** The item's service is in the catalog and active. *)
Definition resolves (catalog : list Service.t) (item : ServiceItem.t) : Prop :=
  exists s,
    Service_findById catalog (ServiceItem.serviceId item) = Some s
    /\ Service.isActive s = true.

(** The item's service is missing from the catalog, or inactive. *)
Definition dangling (catalog : list Service.t) (item : ServiceItem.t) : Prop :=
  match Service_findById catalog (ServiceItem.serviceId item) with
  | None => True
  | Some s => Service.isActive s = false
  end.

(** A cleaner, and Alice's booking with him assigned to it. *)
Definition carl : User.t := User.mk 40%nat "carl@example.in" staff.

Definition doc_alice : BookingDoc.t :=
  BookingDoc.mk booking_alice [StaffAssignment.mk 40%nat 1705313000000 "lead"].

Definition doc_bob : BookingDoc.t := BookingDoc.mk booking_bob [].

(** The coupon with other usage figures. *)
Definition with_usage (limit : option Z) (count : Z) (c : Coupon.t)
  : Coupon.t :=
  Coupon.mk (Coupon.code c) (Coupon.discountType c) (Coupon.discountValue c)
    (Coupon.minimumOrderValue c) (Coupon.maximumDiscount c) limit count
    (Coupon.validFrom c) (Coupon.validUntil c) (Coupon.isActive c).

(** Ten percent off orders of 500 and more, 100 at most, for January
    2024, usable 50 times. *)
Definition welcome10 : Coupon.t :=
  Coupon.mk "WELCOME10" percentage 10 500 (Some 100%Q) (Some 50) 0
    1704067200000 1706745599000 true.

(** * Properties *)

(** ** Collections *)

Section CollectionFacts.
Context {A : Type}.
Implicit Types (p : A -> bool) (upd : A -> A) (c : list A).

Lemma findOne_some p c d : findOne p c = Some d -> In d c /\ p d = true.
Proof.
  induction c as [|x c IH]; simpl; [discriminate|].
  destruct (p x) eqn:E.
  - intros [= ->]. auto.
  - intros H. destruct (IH H). auto.
Qed.

Lemma findOne_none p c : findOne p c = None -> forall d, In d c -> p d = false.
Proof.
  induction c as [|x c IH]; simpl; [tauto|].
  destruct (p x) eqn:E; [discriminate|].
  intros H d [<-|Hin]; auto.
Qed.

Lemma updateOne_none p upd c : findOne p c = None -> updateOne p upd c = c.
Proof.
  induction c as [|x c IH]; simpl; [reflexivity|].
  destruct (p x); [discriminate|]. intros H. now rewrite IH.
Qed.

(** When the update keeps the filter true, the updated document is again
    the first match. *)
Lemma findOne_updateOne p upd c d :
  (forall x, p x = true -> p (upd x) = true) ->
  findOne p c = Some d ->
  findOne p (updateOne p upd c) = Some (upd d).
Proof.
  intros Hp. induction c as [|x c IH]; simpl; [discriminate|].
  destruct (p x) eqn:E.
  - intros [= ->]. simpl. now rewrite (Hp _ E).
  - intros H. simpl. rewrite E. auto.
Qed.

(** Re-applying an idempotent update that keeps the filter true changes
    nothing. *)
Lemma updateOne_idem p upd c :
  (forall x, p x = true -> p (upd x) = true) ->
  (forall x, upd (upd x) = upd x) ->
  updateOne p upd (updateOne p upd c) = updateOne p upd c.
Proof.
  intros Hp Hu. induction c as [|x c IH]; simpl; [reflexivity|].
  destruct (p x) eqn:E; simpl.
  - now rewrite (Hp _ E), Hu.
  - now rewrite E, IH.
Qed.

(** Every document of the updated collection is an old one, or the update
    of an old one that matched. *)
Lemma In_updateOne p upd c d :
  In d (updateOne p upd c) ->
  In d c \/ exists x, In x c /\ p x = true /\ d = upd x.
Proof.
  induction c as [|x c IH]; simpl; [tauto|].
  destruct (p x) eqn:E; simpl.
  - intros [<-|Hin]; [right; exists x; auto | auto].
  - intros [<-|Hin]; [auto|].
    destruct (IH Hin) as [H|(y & Hy & Hpy & ->)]; [auto|].
    right. exists y. auto.
Qed.

(** Documents that the filter rejects are left as they are. *)
Lemma updateOne_other p upd c d :
  p d = false -> In d c -> In d (updateOne p upd c).
Proof.
  intros Hd. induction c as [|x c IH]; simpl; [tauto|].
  destruct (p x) eqn:E.
  - intros [->|Hin]; [congruence|]. now right.
  - intros [->|Hin]; [now left|]. right. auto.
Qed.

End CollectionFacts.

(** ** Numbers *)




(** ** Pricing *)









(** ** Cancellation window *)

Lemma includes_pending_confirmed (s : BookingStatus.t) :
  includes [BookingStatus.pending; BookingStatus.confirmed] s = true
  <-> s = BookingStatus.pending \/ s = BookingStatus.confirmed.
Proof.
  destruct s; simpl; split; intros H; try discriminate; auto;
    destruct H; discriminate.
Qed.

(** C7.  [canCancel] is true exactly when the current time is strictly
    before [scheduledDate] minus two hours and the status is pending or
    confirmed; at exactly two hours before it is false; and when it is
    false [cancelBooking] refuses (403 for a customer who does not own the
    booking, 400 otherwise) and leaves the world as it was. *)
Theorem canCancel_exact (env : Env.t) (b : Booking.t) :
  (canCancel (Env.now env) b = true
   <-> Env.now env < Booking.scheduledDate b - 2 * 60 * 60 * 1000
       /\ (Booking.status b = BookingStatus.pending
           \/ Booking.status b = BookingStatus.confirmed))
  /\ canCancel (Booking.scheduledDate b - 2 * 60 * 60 * 1000) b = false
  /\ forall (req : CancelBookingReq.t) (w : World.t),
       Booking.findById (CancelBookingReq.params_id req) (World.bookings w)
       = Some b ->
       canCancel (Env.now env) b = false ->
       snd (cancelBooking env req w) = w
       /\ res_data (fst (cancelBooking env req w)) = None
       /\ res_status (fst (cancelBooking env req w))
          = if Role_eqb (User.role (CancelBookingReq.user req)) customer
               && negb (Nat.eqb (Booking.customerId b)
                          (User._id (CancelBookingReq.user req)))
            then 403%nat else 400%nat.
Proof.
  split; [|split].
  - unfold canCancel. rewrite andb_true_iff, Z.ltb_lt, includes_pending_confirmed.
    reflexivity.
  - unfold canCancel. now rewrite Z.ltb_irrefl.
  - intros req w Hfind Hno. unfold cancelBooking. rewrite Hfind, Hno.
    destruct (Role_eqb _ _ && negb _); simpl; auto.
Qed.

Lemma canCancel_exact_witness :
  canCancel 1705312800000 booking_noon = false
  /\ snd (cancelBooking (Env.mk 1705312800000 99%nat 0)
            (CancelBookingReq.mk 1%nat None (User.mk 10%nat "a@x.in" customer))
            world_noon)
     = world_noon
  /\ res_status
       (fst (cancelBooking (Env.mk 1705312800000 99%nat 0)
               (CancelBookingReq.mk 1%nat None (User.mk 10%nat "a@x.in" customer))
               world_noon))
     = 400%nat.
Proof.
  destruct (canCancel_exact (Env.mk 1705312800000 99%nat 0) booking_noon)
    as (_ & Hedge & Hrefuse).
  split; [exact Hedge|].
  destruct (Hrefuse
              (CancelBookingReq.mk 1%nat None (User.mk 10%nat "a@x.in" customer))
              world_noon)
    as (Hw & _ & Hs); [reflexivity | reflexivity |].
  split; [exact Hw | exact Hs].
Defined.

(** ** Payment verification *)

Lemma findOne_updateOne_disjoint {A : Type} (p q : A -> bool) (upd : A -> A)
    (c : list A) :
  (forall x, q x = true -> p (upd x) = false) ->
  (forall x, p x = true -> q x = false) ->
  findOne p (updateOne q upd c) = findOne p c.
Proof.
  intros Hupd Hdis. induction c as [|x c IH]; simpl; [reflexivity|].
  destruct (q x) eqn:Eq; simpl.
  - rewrite (Hupd _ Eq). destruct (p x) eqn:Ep; [|reflexivity].
    rewrite (Hdis _ Ep) in Eq. discriminate.
  - destruct (p x); [reflexivity | exact IH].
Qed.

Lemma Booking_findById_update_same (id : ObjectId) (upd : Booking.t -> Booking.t)
    (c : list Booking.t) (b : Booking.t) :
  (forall x, Booking._id (upd x) = Booking._id x) ->
  Booking.findById id c = Some b ->
  Booking.findById id (Booking.findByIdAndUpdate id upd c) = Some (upd b).
Proof.
  intros Hid. apply findOne_updateOne. intros x. now rewrite Hid.
Qed.

Lemma Booking_findById_update_other (id id' : ObjectId)
    (upd : Booking.t -> Booking.t) (c : list Booking.t) :
  (forall x, Booking._id (upd x) = Booking._id x) ->
  id' <> id ->
  Booking.findById id' (Booking.findByIdAndUpdate id upd c)
  = Booking.findById id' c.
Proof.
  intros Hid Hne. apply findOne_updateOne_disjoint; intros x.
  - rewrite Hid, !Nat.eqb_eq, Nat.eqb_neq. congruence.
  - rewrite Nat.eqb_eq, Nat.eqb_neq. congruence.
Qed.

(** C2, the code at the failing input.  Alice confirms her order with the
    signature that matches, and her Payment is stored under the order id.
    The Payment is set to success, but the update of the booking is
    refused when its [payment] is cast: the handler answers 500 and
    booking 1 is still confirmed, with no payment reference.  With a
    forged signature the handler answers 400 and changes nothing. *)
Theorem verifyPayment_leaves_booking_confirmed :
  VerifyPaymentReq.razorpay_signature (verify_A "s3cret:order_A|pay_1" 1%nat)
  = expectedSign toy_hmac "s3cret" (verify_A "s3cret:order_A|pay_1" 1%nat)
  /\ paymentOfOrder (verify_A "s3cret:order_A|pay_1" 1%nat) scene
     = Some payment_A
  /\ verifyPayment toy_hmac (Some "s3cret")
       (verify_A "s3cret:order_A|pay_1" 1%nat) scene
     = (fail 500 "Payment verification failed",
        World.mk [alice; bob; root] [deepClean] [booking_alice; booking_bob]
          [verified (verify_A "s3cret:order_A|pay_1" 1%nat) payment_A] [] [])
  /\ Payment.status (verified (verify_A "s3cret:order_A|pay_1" 1%nat) payment_A)
     = PaymentStatus.success
  /\ Booking.status booking_alice = BookingStatus.confirmed
  /\ Booking.payment booking_alice = None
  /\ verifyPayment toy_hmac (Some "s3cret") (verify_A "forged" 1%nat) scene
     = (fail 400 "Payment verification failed", scene).
Proof.
  repeat split; reflexivity.
Qed.

(** C10, the code at the failing input.  Alice's signature matches and
    her Payment, which is for booking 1, is found; the request names
    booking 2, which is Bob's.  No booking becomes assigned: the handler
    answers 500, booking 2 and booking 1 are as they were, and only the
    Payment has changed. *)
Theorem verifyPayment_assigns_no_booking :
  Payment.bookingId payment_A = 1%nat
  /\ Booking.customerId booking_bob <> User._id alice
  /\ paymentOfOrder (verify_A "s3cret:order_A|pay_1" 2%nat) scene
     = Some payment_A
  /\ fst (verifyPayment toy_hmac (Some "s3cret")
            (verify_A "s3cret:order_A|pay_1" 2%nat) scene)
     = fail 500 "Payment verification failed"
  /\ World.bookings
       (snd (verifyPayment toy_hmac (Some "s3cret")
               (verify_A "s3cret:order_A|pay_1" 2%nat) scene))
     = [booking_alice; booking_bob]
  /\ Booking.status booking_bob = BookingStatus.confirmed
  /\ World.payments
       (snd (verifyPayment toy_hmac (Some "s3cret")
               (verify_A "s3cret:order_A|pay_1" 2%nat) scene))
     = [verified (verify_A "s3cret:order_A|pay_1" 2%nat) payment_A].
Proof.
  repeat split; try reflexivity. simpl. lia.
Qed.

(** ** Webhook reconciliation *)

Lemma World_payments_set (c : list Payment.t) (w : World.t) :
  World.payments (World.set_payments c w) = c.
Proof. reflexivity. Qed.

Lemma World_set_payments_twice (c c' : list Payment.t) (w : World.t) :
  World.set_payments c' (World.set_payments c w) = World.set_payments c' w.
Proof. reflexivity. Qed.

Section Webhook.
Variable hmac_sha256_hex : string -> string -> string.
Variable JSON_stringify : WebhookBody.t -> string.
Variable secret : string.

Lemma signature_accepted (req : WebhookReq.t) :
  validly_signed hmac_sha256_hex JSON_stringify secret req ->
  negb match WebhookReq.x_razorpay_signature req with
       | Some s =>
           String.eqb s
             (hmac_sha256_hex secret (JSON_stringify (WebhookReq.body req)))
       | None => false
       end = false.
Proof.
  unfold validly_signed. intros ->. now rewrite String.eqb_refl.
Qed.

(** What the handler does with a signed [payment.captured] delivery. *)
Lemma webhook_captured (env : Env.t) (req : WebhookReq.t) (e : PaymentEntity.t)
    (w : World.t) :
  validly_signed hmac_sha256_hex JSON_stringify secret req ->
  WebhookBody.event (WebhookReq.body req) = "payment.captured" ->
  WebhookBody.payload_payment (WebhookReq.body req) = Some e ->
  handleRazorpayWebhook hmac_sha256_hex JSON_stringify (Some secret) env req w
  = (send 200 "OK",
     World.set_payments
       (updateOne
          (fun p => String.eqb (Payment.transactionId p) (PaymentEntity.order_id e))
          (captured e) (World.payments w))
       w).
Proof.
  intros Hsig Hev He. unfold handleRazorpayWebhook.
  rewrite (signature_accepted req Hsig), Hev, He. reflexivity.
Qed.

(** What the handler does with a signed [payment.failed] delivery. *)
Lemma webhook_failed (env : Env.t) (req : WebhookReq.t) (e : PaymentEntity.t)
    (w : World.t) :
  validly_signed hmac_sha256_hex JSON_stringify secret req ->
  WebhookBody.event (WebhookReq.body req) = "payment.failed" ->
  WebhookBody.payload_payment (WebhookReq.body req) = Some e ->
  handleRazorpayWebhook hmac_sha256_hex JSON_stringify (Some secret) env req w
  = (send 200 "OK",
     World.set_payments
       (updateOne
          (fun p => String.eqb (Payment.transactionId p) (PaymentEntity.order_id e))
          failed (World.payments w))
       w).
Proof.
  intros Hsig Hev He. unfold handleRazorpayWebhook.
  rewrite (signature_accepted req Hsig), Hev, He. reflexivity.
Qed.

(** C6.  A validly signed [payment.captured] delivery is idempotent: the
    first application answers 200 and leaves the Payment of the order id in
    status success with the event's gateway transaction id; applying the
    same delivery again, at any later time, answers 200 and returns the
    very same world. *)
Theorem captured_idempotent (env env' : Env.t) (req : WebhookReq.t)
    (e : PaymentEntity.t) (w : World.t) :
  validly_signed hmac_sha256_hex JSON_stringify secret req ->
  WebhookBody.event (WebhookReq.body req) = "payment.captured" ->
  WebhookBody.payload_payment (WebhookReq.body req) = Some e ->
  let handle := handleRazorpayWebhook hmac_sha256_hex JSON_stringify (Some secret) in
  let w1 := snd (handle env req w) in
  fst (handle env req w) = send 200 "OK"
  /\ handle env' req w1 = (send 200 "OK", w1)
  /\ forall p, paymentOfEvent e w = Some p ->
       exists p1,
         paymentOfEvent e w1 = Some p1
         /\ paymentOfEvent e (snd (handle env' req w1)) = Some p1
         /\ Payment._id p1 = Payment._id p
         /\ Payment.status p1 = PaymentStatus.success
         /\ Payment.gatewayTransactionId p1 = Some (PaymentEntity.id e).
Proof.
  intros Hsig Hev He handle w1. subst handle w1.
  rewrite (webhook_captured env req e w Hsig Hev He). cbn [fst snd].
  rewrite (webhook_captured env' req e _ Hsig Hev He).
  rewrite World_payments_set, World_set_payments_twice.
  rewrite updateOne_idem; [|intros x Hx; exact Hx | reflexivity].
  split; [reflexivity|]. split; [reflexivity|].
  intros p Hp. exists (captured e p). cbn [snd].
  assert (Hfound :
    paymentOfEvent e
      (World.set_payments
         (updateOne
            (fun p => String.eqb (Payment.transactionId p)
                        (PaymentEntity.order_id e))
            (captured e) (World.payments w)) w)
    = Some (captured e p)).
  { unfold paymentOfEvent in *. rewrite World_payments_set.
    apply findOne_updateOne; [intros x Hx; exact Hx | exact Hp]. }
  repeat split; exact Hfound.
Qed.

(** C5, as the code has it.  A validly signed [payment.failed] delivery
    sets the Payment of the order id to status failed whatever its status
    was, success included, and changes nothing else in that Payment. *)
Theorem failed_event_sets_failed (env : Env.t) (req : WebhookReq.t)
    (e : PaymentEntity.t) (w : World.t) (p : Payment.t) :
  validly_signed hmac_sha256_hex JSON_stringify secret req ->
  WebhookBody.event (WebhookReq.body req) = "payment.failed" ->
  WebhookBody.payload_payment (WebhookReq.body req) = Some e ->
  paymentOfEvent e w = Some p ->
  let handle := handleRazorpayWebhook hmac_sha256_hex JSON_stringify (Some secret) in
  fst (handle env req w) = send 200 "OK"
  /\ paymentOfEvent e (snd (handle env req w))
     = Some (Payment.set_status PaymentStatus.failed p)
  /\ Payment.status (Payment.set_status PaymentStatus.failed p)
     = PaymentStatus.failed.
Proof.
  intros Hsig Hev He Hp handle. subst handle.
  rewrite (webhook_failed env req e w Hsig Hev He). cbn [fst snd].
  split; [reflexivity|]. split; [|reflexivity].
  unfold paymentOfEvent in *. cbn [World.payments World.set_payments].
  apply (findOne_updateOne _ failed); [intros x Hx; exact Hx | exact Hp].
Qed.

End Webhook.

(** *** Deliveries on the concrete scene *)

Lemma captured_idempotent_witness :
  let handle := handleRazorpayWebhook toy_hmac toy_json (Some "whsec") in
  let once := snd (handle (clock 1705313100000)
                     (delivery "payment.captured" "pay_1" "order_A") scene) in
  handle (clock 1705313200000) (delivery "payment.captured" "pay_1" "order_A") once
  = (send 200 "OK", once)
  /\ once = scene_paid.
Proof.
  destruct (captured_idempotent toy_hmac toy_json "whsec"
              (clock 1705313100000) (clock 1705313200000)
              (delivery "payment.captured" "pay_1" "order_A")
              (PaymentEntity.mk "pay_1" "order_A") scene)
    as (_ & Htwice & _); [reflexivity | reflexivity | reflexivity |].
  split; [exact Htwice | reflexivity].
Defined.

Lemma failed_event_sets_failed_witness :
  Payment.status payment_A_paid = PaymentStatus.success
  /\ paymentOfEvent (PaymentEntity.mk "pay_1" "order_A")
       (snd (handleRazorpayWebhook toy_hmac toy_json (Some "whsec")
               (clock 1705313300000)
               (delivery "payment.failed" "pay_1" "order_A") scene_paid))
     = Some (Payment.set_status PaymentStatus.failed payment_A_paid).
Proof.
  destruct (failed_event_sets_failed toy_hmac toy_json "whsec"
              (clock 1705313300000)
              (delivery "payment.failed" "pay_1" "order_A")
              (PaymentEntity.mk "pay_1" "order_A") scene_paid payment_A_paid)
    as (_ & Hfailed & _);
    [reflexivity | reflexivity | reflexivity | reflexivity |].
  split; [reflexivity | exact Hfailed].
Defined.

(** The code overrides: on the paid scene the later [payment.failed]
    delivery turns Alice's successful Payment into a failed one. *)
Lemma failed_after_success_overridden : ~ failed_after_success_ignored.
Proof.
  intros H.
  destruct (H toy_hmac toy_json "whsec" (clock 1705313300000)
              (delivery "payment.failed" "pay_1" "order_A")
              (PaymentEntity.mk "pay_1" "order_A") scene_paid payment_A_paid
              eq_refl eq_refl eq_refl eq_refl eq_refl)
    as (p' & Hp' & Hs).
  vm_compute in Hp'. injection Hp' as <-. discriminate Hs.
Qed.

(** ** Order creation *)

(** The guard of [createOrder] looks at one Payment of the booking, the
    first in the collection: when that one is successful the order is
    refused with nothing written. *)
Lemma createOrder_first_payment_success (razorpay : option Razorpay.t)
    (env : Env.t) (req : CreateOrderReq.t) (w : World.t) (b : Booking.t)
    (p : Payment.t) :
  Booking.findById (CreateOrderReq.bookingId req) (World.bookings w) = Some b ->
  Booking.customerId b = User._id (CreateOrderReq.user req) ->
  Booking.status b = BookingStatus.confirmed ->
  findOne (fun x => Nat.eqb (Payment.bookingId x) (CreateOrderReq.bookingId req))
    (World.payments w) = Some p ->
  Payment.status p = PaymentStatus.success ->
  createOrder razorpay env req w
  = (fail 400 "Payment already completed for this booking", w).
Proof.
  intros Hb Hown Hst Hp Hps. unfold createOrder.
  rewrite Hb, Hown, Nat.eqb_refl, Hst, Hp, Hps. reflexivity.
Qed.

(** C3, the code at the failing input.  A successful Payment exists for
    Alice's booking, yet [createOrder] answers 200, opens a gateway order
    and stores a third Payment: the guard saw only the abandoned first
    attempt. *)
Theorem createOrder_misses_later_success :
  paidFor 1%nat scene_second_attempt_paid
  /\ createOrder (Some (gateway "order_C" "rfnd_1"))
       (Env.mk 1705313500000 7%nat 0)
       (CreateOrderReq.mk 1%nat 1180 alice) scene_second_attempt_paid
     = (ok 200 "Payment order created successfully"
          (CreateOrderData.mk "order_C" (1180 * 100)%float "INR" 7%nat),
        World.mk [alice; bob; root] [deepClean] [booking_alice; booking_bob]
          [payment_A; payment_B_paid; payment_C]
          [OrderOptions.mk (1180 * 100)%float "INR" "booking_DC202401150001"
             1%nat 10%nat]
          []).
Proof.
  split.
  - exists payment_B_paid. simpl. auto.
  - reflexivity.
Qed.

(** The failing state is reached through the handlers themselves, and
    one more capture leaves two successful Payments on one booking. *)
Lemma two_successful_payments_reachable :
  let webhook := handleRazorpayWebhook toy_hmac toy_json (Some "whsec") in
  let w1 :=
    snd (createOrder (Some (gateway "order_B" "rfnd_1"))
           (Env.mk 1705313400000 6%nat 0)
           (CreateOrderReq.mk 1%nat 1180 alice) scene) in
  let w2 :=
    snd (webhook (clock 1705313450000)
           (delivery "payment.captured" "pay_2" "order_B") w1) in
  let w3 :=
    snd (createOrder (Some (gateway "order_C" "rfnd_1"))
           (Env.mk 1705313500000 7%nat 0)
           (CreateOrderReq.mk 1%nat 1180 alice) w2) in
  let w4 :=
    snd (webhook (clock 1705313550000)
           (delivery "payment.captured" "pay_3" "order_C") w3) in
  World.payments w2 = [payment_A; payment_B_paid]
  /\ successes 1%nat w4 = 2%nat.
Proof.
  split; reflexivity.
Qed.

(** ** Refunds *)

(** The instance method of the Payment model guards the amount: on a
    refundable Payment a request above the paid amount throws, and nothing
    is saved. *)
Lemma Payment_processRefund_rejects_excess (now : Z) (this : Payment.t)
    (refundAmount : float) (reason : option string)
    (processedBy : option ObjectId) (c : list Payment.t) :
  Payment.canRefund this = true ->
  (Payment.amount this <? refundAmount)%float = true ->
  Payment.processRefund now this refundAmount reason processedBy c
  = inl "Refund amount cannot exceed payment amount".
Proof.
  intros Hcan Hgt. unfold Payment.processRefund. rewrite Hcan, Hgt.
  reflexivity.
Qed.

(** The handler never compares the amounts: whenever the Payment is
    successful and the gateway accepts, the refund is issued for the
    requested amount, whatever the paid amount. *)
Lemma processRefund_any_amount (rzp : Razorpay.t) (env : Env.t)
    (req : ProcessRefundReq.t) (w : World.t) (payment : Payment.t)
    (refund : GatewayRefund.t) :
  Payment.findById (ProcessRefundReq.params_id req) (World.payments w)
  = Some payment ->
  Payment.status payment = PaymentStatus.success ->
  (0 <=? ProcessRefundReq.amount req)%float = true ->
  Razorpay.payments_refund rzp
    (RefundCall.mk (Payment.gatewayTransactionId payment)
       (ProcessRefundReq.amount req * 100)%float
       (or_default (ProcessRefundReq.reason req) "Customer requested refund"))
  = Some refund ->
  res_status (fst (processRefund (Some rzp) env req w)) = 200%nat
  /\ World.gatewayRefunds (snd (processRefund (Some rzp) env req w))
     = (World.gatewayRefunds w
        ++ [RefundCall.mk (Payment.gatewayTransactionId payment)
              (ProcessRefundReq.amount req * 100)%float
              (or_default (ProcessRefundReq.reason req)
                 "Customer requested refund")])%list.
Proof.
  intros Hp Hs Hpos Hr. unfold processRefund.
  rewrite Hp, Hs. cbn [PaymentStatus.eqb negb]. rewrite Hr, Hpos.
  split; reflexivity.
Qed.

(** C4, the code at the failing input.  The admin asks to refund 5000 on
    the Payment of 1180.  The handler answers 200, has the gateway refund
    500000 paise, marks the Payment refunded with [refundAmount] 5000 and
    sets the booking to refunded with [cancellation.refundAmount] 5000;
    the model's own [processRefund] rejects the same request. *)
Theorem processRefund_exceeds_payment :
  (Payment.amount payment_A_paid <? ProcessRefundReq.amount refund_5000)%float
  = true
  /\ processRefund (Some (gateway "order_C" "rfnd_1"))
       (Env.mk 1705400000000 0%nat 0) refund_5000 scene_paid
     = (ok 200 "Refund processed successfully"
          (ProcessRefundData.mk "rfnd_1" (5000 * 100 / 100)%float "processed"),
        World.mk [alice; bob; root] [deepClean]
          [Booking.set_cancellation
             (Cancellation.mk true None (Some 1705400000000) None
                (Some 5000%float))
             (Booking.set_status BookingStatus.refunded booking_alice);
           booking_bob]
          [Payment.set_status PaymentStatus.refunded
             (Payment.set_refund
                (Refund.mk true (Some 5000%float) (Some "rfnd_1")
                   (Some 1705400000000) (Some "goodwill") None)
                payment_A_paid)]
          []
          [RefundCall.mk (Some "pay_1") (5000 * 100)%float "goodwill"])
  /\ Payment.processRefund 1705400000000 payment_A_paid 5000 (Some "goodwill")
       (Some 30%nat) (World.payments scene_paid)
     = inl "Refund amount cannot exceed payment amount".
Proof.
  split; [reflexivity|]. split; reflexivity.
Qed.

(** ** Reading payments *)

(** [getPayment] applies the ownership rule: a customer is answered with
    data only for a Payment whose [customerId] is their own [_id], and a
    customer who asks for another customer's Payment is answered 403;
    anyone who is not a customer is never answered 403. *)
Lemma getPayment_access (req : GetPaymentReq.t) (w : World.t) :
  (User.role (GetPaymentReq.user req) = customer ->
   (forall d,
      res_data (getPayment req w) = Some d ->
      Payment.customerId (PopulatedPayment.payment d)
      = User._id (GetPaymentReq.user req))
   /\ (forall p c,
         Payment.findById (GetPaymentReq.params_id req) (World.payments w)
         = Some p ->
         findOne (fun u => Nat.eqb (User._id u) (Payment.customerId p))
           (World.users w) = Some c ->
         Payment.customerId p <> User._id (GetPaymentReq.user req) ->
         getPayment req w = fail 403 "Not authorized to view this payment"))
  /\ (User.role (GetPaymentReq.user req) <> customer ->
      res_status (getPayment req w) <> 403%nat).
Proof.
  unfold getPayment, sendPayment. split.
  - intros Hrole. rewrite Hrole. cbn [Role_eqb]. split.
    + intros d.
      destruct (Payment.findById _ _) as [p|]; [|discriminate].
      cbn [PopulatedPayment.customerId PopulatedPayment.bookingId].
      destruct (findOne _ (World.users w)) as [c|] eqn:Hc; [|discriminate].
      apply findOne_some in Hc. destruct Hc as [_ Hc]. apply Nat.eqb_eq in Hc.
      destruct (Nat.eqb (User._id c) _) eqn:E; cbn [negb]; [|discriminate].
      apply Nat.eqb_eq in E.
      destruct (Booking.findById _ _); [discriminate|].
      intros [= <-]. cbn [PopulatedPayment.payment]. congruence.
    + intros p c Hp Hc Hne. rewrite Hp.
      cbn [PopulatedPayment.customerId]. rewrite Hc.
      apply findOne_some in Hc. destruct Hc as [_ Hc]. apply Nat.eqb_eq in Hc.
      destruct (Nat.eqb_spec (User._id c) (User._id (GetPaymentReq.user req)))
        as [E|E]; [congruence | reflexivity].
  - intros Hrole.
    destruct (Payment.findById _ _) as [p|]; [|discriminate].
    destruct (User.role (GetPaymentReq.user req)); [congruence| |];
      cbn [Role_eqb PopulatedPayment.bookingId];
      destruct (Booking.findById _ _); discriminate.
Qed.

(** C8, the code at the failing input.  Bob, a customer, asks for the
    payments of Alice's booking.  [getBookingPayments] answers 200 with
    Alice's Payment, while [getPayment] refuses him the same record with
    403. *)
Theorem getBookingPayments_unguarded :
  Payment.customerId payment_A <> User._id bob
  /\ Booking.customerId booking_alice <> User._id bob
  /\ getBookingPayments (GetBookingPaymentsReq.mk 1%nat bob) scene
     = ok 200 "Booking payments retrieved successfully" [payment_A]
  /\ getPayment (GetPaymentReq.mk 5%nat bob) scene
     = fail 403 "Not authorized to view this payment".
Proof.
  repeat split; try reflexivity; simpl; lia.
Qed.

(** ** Booking numbers *)

(** C9, the code at the failing input.  Both creations of the morning are
    refused: the document that [createBooking] hands to [Booking.create]
    has no [bookingNumber], which the schema requires, and validation runs
    before the hook that would generate one.  Each request is answered
    500, whatever the other does, and no booking and no booking number
    comes to exist. *)
Theorem creations_get_no_number :
  Forall (valid_item (World.services scene_morning))
    (CreateBookingReq.services (snd request_alice))
  /\ Forall (valid_item (World.services scene_morning))
       (CreateBookingReq.services (snd request_bob))
  /\ createBooking (fst request_alice) (snd request_alice) scene_morning
     = (fail 500 "Failed to create booking", scene_morning)
  /\ createBooking (fst request_bob) (snd request_bob) scene_morning
     = (fail 500 "Failed to create booking", scene_morning)
  /\ World.bookings scene_morning = [].
Proof.
  split; [|split; [|split; [|split]]]; try reflexivity.
  - constructor; [|constructor].
    exists deepClean. split; [reflexivity|]. split; reflexivity.
  - constructor; [|constructor].
    exists deepClean. split; [reflexivity|]. split; reflexivity.
Qed.

(** * Further properties *)

(** ** Collections, continued *)

Lemma findOne_ext {A : Type} (p q : A -> bool) (c : list A) :
  (forall x, p x = q x) -> findOne p c = findOne q c.
Proof.
  intros H. induction c as [|x c IH]; simpl; [reflexivity|].
  now rewrite H, IH.
Qed.

Lemma updateOne_ext {A : Type} (p q : A -> bool) (upd : A -> A) (c : list A) :
  (forall x, p x = q x) -> updateOne p upd c = updateOne q upd c.
Proof.
  intros H. induction c as [|x c IH]; simpl; [reflexivity|].
  now rewrite H, IH.
Qed.

Lemma map_updateOne {A B : Type} (f : A -> B) (p : A -> bool) (upd : A -> A)
    (c : list A) :
  (forall x, p x = true -> f (upd x) = f x) ->
  map f (updateOne p upd c) = map f c.
Proof.
  intros H. induction c as [|x c IH]; simpl; [reflexivity|].
  destruct (p x) eqn:E; simpl; [now rewrite (H _ E) | now rewrite IH].
Qed.

(** An update that the first update already made changes nothing. *)
Lemma updateOne_absorb {A : Type} (p : A -> bool) (f g : A -> A) (c : list A) :
  (forall x, p x = true -> p (g x) = true) ->
  (forall x, f (g x) = g x) ->
  updateOne p f (updateOne p g c) = updateOne p g c.
Proof.
  intros Hp Hf. induction c as [|x c IH]; simpl; [reflexivity|].
  destruct (p x) eqn:E; simpl.
  - now rewrite (Hp _ E), Hf.
  - now rewrite E, IH.
Qed.

Ltac split_handler :=
  repeat match goal with
         | |- context [match ?x with _ => _ end] => destruct x eqn:?
         | |- context [if ?x then _ else _] => destruct x eqn:?
         end.

(** ** No write without success *)

Lemma createOrder_writes_on_200 (razorpay : option Razorpay.t) (env : Env.t)
    (req : CreateOrderReq.t) (w : World.t) :
  res_status (fst (createOrder razorpay env req w)) <> 200%nat ->
  World.payments (snd (createOrder razorpay env req w)) = World.payments w
  /\ World.bookings (snd (createOrder razorpay env req w)) = World.bookings w.
Proof.
  unfold createOrder. split_handler; simpl; intros H; auto; congruence.
Qed.

Lemma webhook_writes_on_200 (hmac_sha256_hex : string -> string -> string)
    (JSON_stringify : WebhookBody.t -> string) (key : option string)
    (env : Env.t) (req : WebhookReq.t) (w : World.t) :
  res_status (fst (handleRazorpayWebhook hmac_sha256_hex JSON_stringify key
                     env req w)) <> 200%nat ->
  snd (handleRazorpayWebhook hmac_sha256_hex JSON_stringify key env req w) = w.
Proof.
  unfold handleRazorpayWebhook. split_handler; simpl; intros H; auto; congruence.
Qed.

Lemma processRefund_writes_on_200 (razorpay : option Razorpay.t) (env : Env.t)
    (req : ProcessRefundReq.t) (w : World.t) :
  res_status (fst (processRefund razorpay env req w)) <> 200%nat ->
  World.payments (snd (processRefund razorpay env req w)) = World.payments w
  /\ World.bookings (snd (processRefund razorpay env req w)) = World.bookings w.
Proof.
  unfold processRefund. split_handler; simpl; intros H; auto; congruence.
Qed.

Lemma cancelBooking_writes_on_200 (env : Env.t) (req : CancelBookingReq.t)
    (w : World.t) :
  res_status (fst (cancelBooking env req w)) <> 200%nat ->
  snd (cancelBooking env req w) = w.
Proof.
  unfold cancelBooking. split_handler; simpl; intros H; auto; congruence.
Qed.

(** A document without a booking number does not pass validation. *)
Lemma Booking_validate_unnumbered (now : Z) (b : Booking.t) :
  Booking.bookingNumber b = "" -> Booking_validate now b = false.
Proof.
  intros H. unfold Booking_validate. rewrite H. reflexivity.
Qed.

(** What [createBooking] answers: the 400 of the pricing loop, or the 500
    of the [catch] block; never with a write. *)
Lemma createBooking_answer (env : Env.t) (req : CreateBookingReq.t)
    (w : World.t) :
  createBooking env req w
  = (match computePricing (World.services w) (CreateBookingReq.services req)
     with
     | inl (ServiceNotFoundOrInactive id) =>
         fail 400 ("Service " ++ toString id ++ " not found or inactive")
     | inr _ => fail 500 "Failed to create booking"
     end, w).
Proof.
  unfold createBooking.
  destruct (computePricing _ _) as [[id]|[v p]]; [reflexivity|].
  rewrite Booking_validate_unnumbered by reflexivity. reflexivity.
Qed.

(** X1.  [createOrder], [handleRazorpayWebhook], [processRefund] and
    [cancelBooking] write to the Payment and Booking collections only when
    they answer 200: after any other answer both collections are what they
    were.  [createBooking] never writes at all. *)
Theorem no_write_without_success :
  (forall razorpay env req w,
     res_status (fst (createOrder razorpay env req w)) <> 200%nat ->
     World.payments (snd (createOrder razorpay env req w)) = World.payments w
     /\ World.bookings (snd (createOrder razorpay env req w)) = World.bookings w)
  /\ (forall hmac_sha256_hex JSON_stringify key env req w,
        res_status (fst (handleRazorpayWebhook hmac_sha256_hex JSON_stringify
                           key env req w)) <> 200%nat ->
        snd (handleRazorpayWebhook hmac_sha256_hex JSON_stringify key env req w)
        = w)
  /\ (forall razorpay env req w,
        res_status (fst (processRefund razorpay env req w)) <> 200%nat ->
        World.payments (snd (processRefund razorpay env req w))
        = World.payments w
        /\ World.bookings (snd (processRefund razorpay env req w))
           = World.bookings w)
  /\ (forall env req w,
        res_status (fst (cancelBooking env req w)) <> 200%nat ->
        snd (cancelBooking env req w) = w)
  /\ (forall env req w, snd (createBooking env req w) = w).
Proof.
  repeat split.
  - apply createOrder_writes_on_200; assumption.
  - apply createOrder_writes_on_200; assumption.
  - apply webhook_writes_on_200; assumption.
  - apply processRefund_writes_on_200; assumption.
  - apply processRefund_writes_on_200; assumption.
  - apply cancelBooking_writes_on_200; assumption.
  - intros. rewrite createBooking_answer. reflexivity.
Qed.

Lemma no_write_without_success_witness :
  World.payments
    (snd (createOrder (Some (gateway "order_C" "rfnd_1"))
            (Env.mk 1705313500000 7%nat 0)
            (CreateOrderReq.mk 1%nat 1180 bob) scene))
  = World.payments scene
  /\ snd (handleRazorpayWebhook toy_hmac toy_json (Some "other")
            (clock 1705313300000)
            (delivery "payment.failed" "pay_1" "order_A") scene_paid)
     = scene_paid
  /\ World.payments
       (snd (processRefund None (clock 1705400000000) refund_5000
               scene_paid))
     = World.payments scene_paid
  /\ snd (cancelBooking (clock 1705572000000)
            (CancelBookingReq.mk 1%nat None alice) scene) = scene
  /\ snd (createBooking (fst request_alice) (snd request_alice) scene_morning)
     = scene_morning.
Proof.
  destruct no_write_without_success as (H1 & H3 & H4 & H5 & H6).
  split; [apply H1; vm_compute; discriminate|].
  split; [apply H3; vm_compute; discriminate|].
  split; [apply H4; vm_compute; discriminate|].
  split; [apply H5; vm_compute; discriminate|].
  apply H6.
Defined.

(** ** Order creation, continued *)

(** X2.  What a 200 answer of [createOrder] means: the booking exists,
    belongs to the requester and is confirmed; the gateway took one order
    for the requested amount times 100, as the binary64 product; and
    exactly one Payment was
    appended, in status initiated, keyed by the gateway's order id, for the
    requested booking, requester and amount.  The amount is the request's:
    nothing compares it with the booking's total. *)
Theorem createOrder_success (razorpay : option Razorpay.t) (env : Env.t)
    (req : CreateOrderReq.t) (w : World.t) :
  res_status (fst (createOrder razorpay env req w)) = 200%nat ->
  exists booking rzp order,
    Booking.findById (CreateOrderReq.bookingId req) (World.bookings w)
    = Some booking
    /\ Booking.customerId booking = User._id (CreateOrderReq.user req)
    /\ Booking.status booking = BookingStatus.confirmed
    /\ razorpay = Some rzp
    /\ Razorpay.orders_create rzp
         (OrderOptions.mk (CreateOrderReq.amount req * 100)%float "INR"
            ("booking_" ++ Booking.bookingNumber booking)
            (CreateOrderReq.bookingId req)
            (User._id (CreateOrderReq.user req)))
       = Some order
    /\ snd (createOrder razorpay env req w)
       = World.mk (World.users w) (World.services w) (World.bookings w)
           (World.payments w
            ++ [Payment.mk (Env.newId env) (Order.id order)
                  (CreateOrderReq.bookingId req)
                  (User._id (CreateOrderReq.user req))
                  (CreateOrderReq.amount req) "INR" "razorpay" "razorpay"
                  (Some (Order.id order)) None PaymentStatus.initiated None
                  Refund.default (Env.now env)])%list
           (World.gatewayOrders w
            ++ [OrderOptions.mk (CreateOrderReq.amount req * 100)%float "INR"
                  ("booking_" ++ Booking.bookingNumber booking)
                  (CreateOrderReq.bookingId req)
                  (User._id (CreateOrderReq.user req))])%list
           (World.gatewayRefunds w).
Proof.
  unfold createOrder.
  destruct (Booking.findById _ _) as [booking|] eqn:Hb; [|discriminate].
  destruct (Nat.eqb (Booking.customerId booking) _) eqn:Hown;
    [|discriminate]. apply Nat.eqb_eq in Hown. cbn [negb].
  destruct (Booking.status booking) eqn:Hst; try discriminate.
  cbn [BookingStatus.eqb negb].
  match goal with
  | |- context [if ?c then _ else _] => destruct c; [discriminate|]
  end.
  destruct razorpay as [rzp|]; [|discriminate].
  destruct (Razorpay.orders_create rzp _) as [order|] eqn:Ho; [|discriminate].
  match goal with
  | |- context [if ?c then _ else _] => destruct c; [discriminate|]
  end.
  intros _. exists booking, rzp, order. repeat split; auto.
Qed.

Lemma createOrder_success_witness :
  exists booking,
    Booking.findById 1%nat (World.bookings scene) = Some booking
    /\ Booking.status booking = BookingStatus.confirmed
    /\ World.payments
         (snd (createOrder (Some (gateway "order_B" "rfnd_1"))
                 (Env.mk 1705313400000 6%nat 0)
                 (CreateOrderReq.mk 1%nat 1180 alice) scene))
       = [payment_A;
          Payment.mk 6%nat "order_B" 1%nat 10%nat 1180 "INR" "razorpay"
            "razorpay" (Some "order_B") None PaymentStatus.initiated None
            Refund.default 1705313400000].
Proof.
  destruct (createOrder_success (Some (gateway "order_B" "rfnd_1"))
              (Env.mk 1705313400000 6%nat 0)
              (CreateOrderReq.mk 1%nat 1180 alice) scene)
    as (booking & rzp & order & Hb & _ & Hst & _ & _ & Hw); [reflexivity|].
  exists booking. split; [exact Hb|]. split; [exact Hst|]. reflexivity.
Defined.

(** ** Documents are updated in place *)

Ltac keep_ids :=
  unfold ids; split_handler; cbn [snd World.payments World.bookings
    World.set_payments World.set_bookings World.add_gatewayRefund
    World.add_gatewayOrder]; try reflexivity;
  unfold Booking.findByIdAndUpdate, Payment.save;
  rewrite ?map_updateOne; try reflexivity;
  intros ? Hid; apply Nat.eqb_eq in Hid; cbn in *; congruence.

(** X3.  [verifyPayment], [handleRazorpayWebhook], [processRefund] and
    [cancelBooking] never add, remove, reorder or re-identify a document:
    whatever they answer, the Payment and Booking collections hold the
    same [_id]s in the same order afterwards. *)
Theorem updates_keep_ids :
  (forall hmac_sha256_hex key req w,
     ids (snd (verifyPayment hmac_sha256_hex key req w)) = ids w)
  /\ (forall hmac_sha256_hex JSON_stringify key env req w,
        ids (snd (handleRazorpayWebhook hmac_sha256_hex JSON_stringify key
                    env req w)) = ids w)
  /\ (forall razorpay env req w,
        ids (snd (processRefund razorpay env req w)) = ids w)
  /\ (forall env req w, ids (snd (cancelBooking env req w)) = ids w).
Proof.
  repeat split; intros.
  - unfold verifyPayment. keep_ids.
  - unfold handleRazorpayWebhook. keep_ids.
  - unfold processRefund. keep_ids.
  - unfold cancelBooking. keep_ids.
Qed.

(** ** Webhook reconciliation, continued *)

Section WebhookMore.
Variable hmac_sha256_hex : string -> string -> string.
Variable JSON_stringify : WebhookBody.t -> string.
Variable secret : string.

(** X4.  The webhook handler rejects a delivery whose signature header is
    absent or is not the HMAC of the body, with 400 and no change; it
    answers a signed delivery of any other event type with 200 and no
    change; and whatever the delivery, it leaves users, services, bookings
    and the gateway untouched: a capture that arrives by webhook does not
    move the booking out of confirmed. *)
Theorem webhook_frame (env : Env.t) (req : WebhookReq.t) (w : World.t) :
  (~ validly_signed hmac_sha256_hex JSON_stringify secret req ->
   handleRazorpayWebhook hmac_sha256_hex JSON_stringify (Some secret) env
     req w
   = (send 400 "Invalid signature", w))
  /\ (validly_signed hmac_sha256_hex JSON_stringify secret req ->
      WebhookBody.event (WebhookReq.body req) <> "payment.captured" ->
      WebhookBody.event (WebhookReq.body req) <> "payment.failed" ->
      WebhookBody.event (WebhookReq.body req) <> "refund.processed" ->
      snd (handleRazorpayWebhook hmac_sha256_hex JSON_stringify (Some secret)
             env req w) = w)
  /\ World.set_payments (World.payments w)
       (snd (handleRazorpayWebhook hmac_sha256_hex JSON_stringify
               (Some secret) env req w))
     = w.
Proof.
  split; [|split].
  - intros Hbad. unfold handleRazorpayWebhook.
    destruct (WebhookReq.x_razorpay_signature req) as [s|] eqn:Hs;
      [|reflexivity].
    destruct (String.eqb_spec s
                (hmac_sha256_hex secret (JSON_stringify (WebhookReq.body req))))
      as [->|Hne]; [|reflexivity].
    exfalso. apply Hbad. exact Hs.
  - intros Hsig H1 H2 H3. unfold handleRazorpayWebhook.
    rewrite (signature_accepted _ _ _ req Hsig).
    apply String.eqb_neq in H1, H2, H3. rewrite H1, H2, H3.
    destruct (WebhookBody.payload_payment _); reflexivity.
  - unfold handleRazorpayWebhook. destruct w. split_handler; reflexivity.
Qed.

(** X5.  A signed [refund.processed] delivery finds the Payment by its
    gateway transaction id and records the refund on it: [isRefunded],
    the amount divided by 100 (in binary64), the gateway's refund id and
    the time.  The
    status and the stored refund reason stay as they were: this path never
    sets status refunded. *)
Theorem webhook_refund_processed (env : Env.t) (req : WebhookReq.t)
    (e : PaymentEntity.t) (r : RefundEntity.t) (w : World.t) (p : Payment.t) :
  validly_signed hmac_sha256_hex JSON_stringify secret req ->
  WebhookBody.event (WebhookReq.body req) = "refund.processed" ->
  WebhookBody.payload_payment (WebhookReq.body req) = Some e ->
  WebhookBody.payload_refund (WebhookReq.body req) = Some r ->
  findOne
    (fun x => match Payment.gatewayTransactionId x with
              | Some g => String.eqb g (RefundEntity.payment_id r)
              | None => false
              end)
    (World.payments w) = Some p ->
  fst (handleRazorpayWebhook hmac_sha256_hex JSON_stringify (Some secret) env
         req w) = send 200 "OK"
  /\ exists p',
       findOne
         (fun x => match Payment.gatewayTransactionId x with
                   | Some g => String.eqb g (RefundEntity.payment_id r)
                   | None => false
                   end)
         (World.payments
            (snd (handleRazorpayWebhook hmac_sha256_hex JSON_stringify
                    (Some secret) env req w))) = Some p'
       /\ Payment.refund p'
          = Refund.mk true (Some (RefundEntity.amount r / 100)%float)
              (Some (RefundEntity.id r)) (Some (Env.now env))
              (Refund.refundReason (Payment.refund p))
              (Refund.processedBy (Payment.refund p))
       /\ Payment.status p' = Payment.status p
       /\ Payment._id p' = Payment._id p
       /\ Payment.amount p' = Payment.amount p.
Proof.
  intros Hsig Hev He Hr Hp. unfold handleRazorpayWebhook.
  rewrite (signature_accepted _ _ _ req Hsig), Hev, He, Hr.
  cbn [String.eqb Ascii.eqb Bool.eqb fst snd]. split; [reflexivity|].
  exists (refund_processed (Env.now env) r p). split; [|repeat split].
  rewrite World_payments_set.
  apply findOne_updateOne; [intros x Hx; exact Hx | exact Hp].
Qed.

End WebhookMore.

Lemma webhook_frame_witness :
  handleRazorpayWebhook toy_hmac toy_json (Some "whsec") (clock 1705313300000)
    (WebhookReq.mk (Some "forged")
       (WebhookBody.mk "payment.failed"
          (Some (PaymentEntity.mk "pay_1" "order_A")) None))
    scene_paid
  = (send 400 "Invalid signature", scene_paid)
  /\ snd (handleRazorpayWebhook toy_hmac toy_json (Some "whsec")
            (clock 1705313300000) (delivery "order.paid" "pay_1" "order_A")
            scene_paid)
     = scene_paid.
Proof.
  split.
  - apply (webhook_frame toy_hmac toy_json "whsec"). vm_compute. discriminate.
  - apply (webhook_frame toy_hmac toy_json "whsec");
      [reflexivity | vm_compute; discriminate | vm_compute; discriminate
       | vm_compute; discriminate].
Defined.

Lemma webhook_refund_processed_witness :
  exists p',
    Payment.findById 5%nat
      (World.payments
         (snd (handleRazorpayWebhook toy_hmac toy_json (Some "whsec")
                 (clock 1705400000000) (refund_delivery "rfnd_9" "pay_1" 50000)
                 scene_paid)))
    = Some p'
    /\ Refund.refundAmount (Payment.refund p') = Some (50000 / 100)%float
    /\ Payment.status p' = PaymentStatus.success.
Proof.
  destruct (webhook_refund_processed toy_hmac toy_json "whsec"
              (clock 1705400000000) (refund_delivery "rfnd_9" "pay_1" 50000)
              (PaymentEntity.mk "pay_1" "order_A")
              (RefundEntity.mk "rfnd_9" "pay_1" 50000) scene_paid payment_A_paid)
    as (_ & p' & Hp' & Hrefund & Hstatus & _);
    [reflexivity | reflexivity | reflexivity | reflexivity | reflexivity |].
  exists p'. vm_compute in Hp'. injection Hp' as <-.
  split; [reflexivity|]. split; reflexivity.
Defined.

(** ** Payment verification, continued *)

Section VerificationMore.
Variable hmac_sha256_hex : string -> string -> string.
Variable JSON_stringify : WebhookBody.t -> string.
Variable secret whsecret : string.

(** What [verifyPayment] does once the signature matches and the Payment
    is found. *)
Lemma verifyPayment_found (req : VerifyPaymentReq.t) (w : World.t)
    (p : Payment.t) :
  VerifyPaymentReq.razorpay_signature req
  = expectedSign hmac_sha256_hex secret req ->
  paymentOfOrder req w = Some p ->
  verifyPayment hmac_sha256_hex (Some secret) req w
  = (fail 500 "Payment verification failed",
     World.set_payments
       (updateOne
          (fun x => String.eqb (Payment.transactionId x)
                      (VerifyPaymentReq.razorpay_order_id req))
          (verified req) (World.payments w))
       w).
Proof.
  intros Heq Hp. unfold verifyPayment, paymentOfOrder in *.
  unfold expectedSign in Heq. apply String.eqb_eq in Heq. rewrite Heq, Hp.
  reflexivity.
Qed.

(** X6.  The synchronous verification and the webhook agree on the
    Payment: once [verifyPayment] has met a matching signature and
    written the Payment of the order, a signed [payment.captured] delivery
    for the same order and gateway payment is answered 200 and changes
    nothing. *)
Theorem captured_after_verify (env : Env.t) (vreq : VerifyPaymentReq.t)
    (wreq : WebhookReq.t) (w : World.t) (p : Payment.t) :
  VerifyPaymentReq.razorpay_signature vreq
  = expectedSign hmac_sha256_hex secret vreq ->
  paymentOfOrder vreq w = Some p ->
  validly_signed hmac_sha256_hex JSON_stringify whsecret wreq ->
  WebhookBody.event (WebhookReq.body wreq) = "payment.captured" ->
  WebhookBody.payload_payment (WebhookReq.body wreq)
  = Some (PaymentEntity.mk (VerifyPaymentReq.razorpay_payment_id vreq)
            (VerifyPaymentReq.razorpay_order_id vreq)) ->
  handleRazorpayWebhook hmac_sha256_hex JSON_stringify (Some whsecret) env wreq
    (snd (verifyPayment hmac_sha256_hex (Some secret) vreq w))
  = (send 200 "OK", snd (verifyPayment hmac_sha256_hex (Some secret) vreq w)).
Proof.
  intros Hmatch Hp Hsig Hev He.
  rewrite (webhook_captured _ _ _ env wreq _ _ Hsig Hev He). f_equal.
  rewrite (verifyPayment_found vreq w p Hmatch Hp).
  cbn [snd PaymentEntity.order_id].
  unfold World.set_payments.
  cbn [World.payments World.users World.services World.bookings
       World.gatewayOrders World.gatewayRefunds].
  f_equal. apply updateOne_absorb; [intros x Hx; exact Hx | reflexivity].
Qed.

(** X7.  The outcomes of [verifyPayment].  A signature that differs from
    the HMAC is answered 400 and nothing changes; a matching one without a
    Payment under the order id is answered 404 and nothing changes; a
    matching one with such a Payment is answered 500, whatever [bookingId]
    the request names: the Payment has become success with the gateway
    payment id, and no booking has changed.  The handler never answers
    200 and never changes anything but the Payment collection. *)
Theorem verifyPayment_outcome (req : VerifyPaymentReq.t) (w : World.t) :
  (VerifyPaymentReq.razorpay_signature req
   <> expectedSign hmac_sha256_hex secret req ->
   verifyPayment hmac_sha256_hex (Some secret) req w
   = (fail 400 "Payment verification failed", w))
  /\ (VerifyPaymentReq.razorpay_signature req
      = expectedSign hmac_sha256_hex secret req ->
      paymentOfOrder req w = None ->
      verifyPayment hmac_sha256_hex (Some secret) req w
      = (fail 404 "Payment record not found", w))
  /\ (VerifyPaymentReq.razorpay_signature req
      = expectedSign hmac_sha256_hex secret req ->
      forall p, paymentOfOrder req w = Some p ->
      fst (verifyPayment hmac_sha256_hex (Some secret) req w)
      = fail 500 "Payment verification failed"
      /\ paymentOfOrder req
           (snd (verifyPayment hmac_sha256_hex (Some secret) req w))
         = Some (verified req p)
      /\ Payment.status (verified req p) = PaymentStatus.success
      /\ Payment.gatewayTransactionId (verified req p)
         = Some (VerifyPaymentReq.razorpay_payment_id req)
      /\ Payment._id (verified req p) = Payment._id p)
  /\ res_status (fst (verifyPayment hmac_sha256_hex (Some secret) req w))
     <> 200%nat
  /\ World.set_payments (World.payments w)
       (snd (verifyPayment hmac_sha256_hex (Some secret) req w))
     = w.
Proof.
  split; [|split; [|split; [|split]]].
  - intros Hne. unfold verifyPayment.
    apply String.eqb_neq in Hne. unfold expectedSign in Hne. now rewrite Hne.
  - intros Heq Hnone. unfold verifyPayment, paymentOfOrder in *.
    unfold expectedSign in Heq. apply String.eqb_eq in Heq.
    now rewrite Heq, Hnone.
  - intros Heq p Hp. rewrite (verifyPayment_found req w p Heq Hp).
    cbn [fst snd]. split; [reflexivity|]. split; [|repeat split].
    unfold paymentOfOrder in *. cbn [World.payments World.set_payments].
    apply findOne_updateOne; [intros x Hx; exact Hx | exact Hp].
  - unfold verifyPayment. split_handler;
      try (unfold Booking.castPayment in *; discriminate);
      cbn; discriminate.
  - unfold verifyPayment. destruct w. split_handler;
      try (unfold Booking.castPayment in *; discriminate); reflexivity.
Qed.

End VerificationMore.

Lemma captured_after_verify_witness :
  let verified_scene :=
    snd (verifyPayment toy_hmac (Some "s3cret")
           (verify_A "s3cret:order_A|pay_1" 1%nat) scene) in
  handleRazorpayWebhook toy_hmac toy_json (Some "whsec") (clock 1705313200000)
    (delivery "payment.captured" "pay_1" "order_A") verified_scene
  = (send 200 "OK", verified_scene).
Proof.
  apply (captured_after_verify toy_hmac toy_json "s3cret" "whsec"
           (clock 1705313200000) (verify_A "s3cret:order_A|pay_1" 1%nat)
           (delivery "payment.captured" "pay_1" "order_A") scene payment_A);
    reflexivity.
Defined.

Lemma verifyPayment_outcome_witness :
  verifyPayment toy_hmac (Some "s3cret") (verify_A "forged" 1%nat) scene
  = (fail 400 "Payment verification failed", scene)
  /\ verifyPayment toy_hmac (Some "s3cret")
       (VerifyPaymentReq.mk "order_Z" "pay_1" "s3cret:order_Z|pay_1" 1%nat
          alice) scene
     = (fail 404 "Payment record not found", scene)
  /\ fst (verifyPayment toy_hmac (Some "s3cret")
            (verify_A "s3cret:order_A|pay_1" 404%nat) scene)
     = fail 500 "Payment verification failed"
  /\ paymentOfOrder (verify_A "s3cret:order_A|pay_1" 404%nat)
       (snd (verifyPayment toy_hmac (Some "s3cret")
               (verify_A "s3cret:order_A|pay_1" 404%nat) scene))
     = Some (verified (verify_A "s3cret:order_A|pay_1" 404%nat) payment_A).
Proof.
  split; [|split].
  - apply (verifyPayment_outcome toy_hmac "s3cret"). vm_compute. discriminate.
  - apply (verifyPayment_outcome toy_hmac "s3cret"); reflexivity.
  - destruct (verifyPayment_outcome toy_hmac "s3cret"
                (verify_A "s3cret:order_A|pay_1" 404%nat) scene)
      as (_ & _ & H & _).
    destruct (H eq_refl payment_A eq_refl) as (H500 & Hp & _).
    split; [exact H500 | exact Hp].
Defined.

(** ** Refunds, continued *)

Lemma Payment_findById_id (id : ObjectId) (c : list Payment.t) (p : Payment.t) :
  Payment.findById id c = Some p -> Payment._id p = id.
Proof.
  intros H. apply findOne_some in H. destruct H as [_ H].
  now apply Nat.eqb_eq in H.
Qed.

(** [save] then [findById] gives the saved document. *)
Lemma Payment_findById_save (id : ObjectId) (c : list Payment.t)
    (p p' : Payment.t) :
  Payment.findById id c = Some p ->
  Payment._id p' = id ->
  Payment.findById id (Payment.save p' c) = Some p'.
Proof.
  intros Hp Hid. unfold Payment.findById, Payment.save. rewrite Hid.
  apply (findOne_updateOne _ (fun _ => p') c p); [|exact Hp].
  intros x _. rewrite Hid. apply Nat.eqb_refl.
Qed.

(** X8.  What an accepted [processRefund] leaves behind, for every
    non-negative amount, smaller than the payment or not: the Payment is in
    status refunded with [refund.isRefunded] and the requested amount, the
    gateway was asked for the amount times 100 (the binary64 product),
    and the Payment's booking,
    when stored, is in status refunded with [cancellation.refundAmount]
    set.  A second [processRefund] on the same Payment, whatever its
    amount, is refused with 400 and changes nothing. *)
Theorem processRefund_once (rzp : Razorpay.t) (env : Env.t)
    (req : ProcessRefundReq.t) (w : World.t) (payment : Payment.t)
    (refund : GatewayRefund.t) :
  Payment.findById (ProcessRefundReq.params_id req) (World.payments w)
  = Some payment ->
  Payment.status payment = PaymentStatus.success ->
  (0 <=? ProcessRefundReq.amount req)%float = true ->
  Razorpay.payments_refund rzp
    (RefundCall.mk (Payment.gatewayTransactionId payment)
       (ProcessRefundReq.amount req * 100)%float
       (or_default (ProcessRefundReq.reason req) "Customer requested refund"))
  = Some refund ->
  let w' := snd (processRefund (Some rzp) env req w) in
  (exists payment',
     Payment.findById (ProcessRefundReq.params_id req) (World.payments w')
     = Some payment'
     /\ Payment.status payment' = PaymentStatus.refunded
     /\ Refund.isRefunded (Payment.refund payment') = true
     /\ Refund.refundAmount (Payment.refund payment')
        = Some (ProcessRefundReq.amount req)
     /\ Refund.refundTransactionId (Payment.refund payment')
        = Some (GatewayRefund.id refund))
  /\ (forall b,
        Booking.findById (Payment.bookingId payment) (World.bookings w)
        = Some b ->
        exists b',
          Booking.findById (Payment.bookingId payment) (World.bookings w')
          = Some b'
          /\ Booking.status b' = BookingStatus.refunded
          /\ Cancellation.refundAmount (Booking.cancellation b')
             = Some (ProcessRefundReq.amount req))
  /\ (forall razorpay' env' req',
        ProcessRefundReq.params_id req' = ProcessRefundReq.params_id req ->
        processRefund razorpay' env' req' w'
        = (fail 400 "Only successful payments can be refunded", w')).
Proof.
  intros Hp Hs Hpos Hr w'.
  assert (Hw' :
    w' = World.set_bookings
           (Booking.findByIdAndUpdate (Payment.bookingId payment)
              (fun b =>
                 Booking.set_cancellation
                   (Cancellation.mk true None (Some (Env.now env)) None
                      (Some (ProcessRefundReq.amount req)))
                   (Booking.set_status BookingStatus.refunded b))
              (World.bookings w))
           (World.set_payments
              (Payment.save
                 (Payment.set_status PaymentStatus.refunded
                    (Payment.set_refund
                       (Refund.mk true (Some (ProcessRefundReq.amount req))
                          (Some (GatewayRefund.id refund)) (Some (Env.now env))
                          (ProcessRefundReq.reason req) None)
                       payment))
                 (World.payments w))
              (World.add_gatewayRefund
                 (RefundCall.mk (Payment.gatewayTransactionId payment)
                    (ProcessRefundReq.amount req * 100)%float
                    (or_default (ProcessRefundReq.reason req)
                       "Customer requested refund"))
                 w))).
  { subst w'. unfold processRefund.
    rewrite Hp, Hs. cbn [PaymentStatus.eqb negb]. rewrite Hr.
    rewrite Hpos. reflexivity. }
  assert (Hfound :
    Payment.findById (ProcessRefundReq.params_id req) (World.payments w')
    = Some (Payment.set_status PaymentStatus.refunded
              (Payment.set_refund
                 (Refund.mk true (Some (ProcessRefundReq.amount req))
                    (Some (GatewayRefund.id refund)) (Some (Env.now env))
                    (ProcessRefundReq.reason req) None)
                 payment))).
  { rewrite Hw'. cbn [World.payments World.set_bookings World.set_payments].
    apply (Payment_findById_save _ _ payment); [exact Hp|].
    apply (Payment_findById_id _ _ _ Hp). }
  split; [|split].
  - eexists. split; [exact Hfound|]. repeat split.
  - intros b Hb. eexists. split; [|split].
    + rewrite Hw'. cbn [World.bookings World.set_bookings].
      apply Booking_findById_update_same; [reflexivity | exact Hb].
    + reflexivity.
    + reflexivity.
  - intros razorpay' env' req' Hid. unfold processRefund.
    rewrite Hid, Hfound. reflexivity.
Qed.

Lemma processRefund_once_witness :
  let w' :=
    snd (processRefund (Some (gateway "order_C" "rfnd_1"))
           (clock 1705400000000)
           (ProcessRefundReq.mk 5%nat 200 None root) scene_paid) in
  (exists payment',
     Payment.findById 5%nat (World.payments w') = Some payment'
     /\ Payment.status payment' = PaymentStatus.refunded
     /\ Refund.refundAmount (Payment.refund payment') = Some 200%float)
  /\ processRefund (Some (gateway "order_C" "rfnd_2")) (clock 1705400100000)
       (ProcessRefundReq.mk 5%nat 980 None root) w'
     = (fail 400 "Only successful payments can be refunded", w').
Proof.
  destruct (processRefund_once (gateway "order_C" "rfnd_1")
              (clock 1705400000000)
              (ProcessRefundReq.mk 5%nat 200 None root) scene_paid
              payment_A_paid
              (GatewayRefund.mk "rfnd_1" (200 * 100)%float "processed"))
    as ((p' & Hp' & Hst & _ & Hamt & _) & _ & Hagain);
    [reflexivity | reflexivity | reflexivity | reflexivity |].
  split.
  - exists p'. auto.
  - apply Hagain. reflexivity.
Defined.

(** *** Comparisons of Numbers *)

Lemma SFcompare_swap (a b : spec_float) :
  SFcompare b a
  = match SFcompare a b with
    | Some c => Some (CompOpp c)
    | None => None
    end.
Proof.
  destruct a as [sa|sa| |sa ma ea], b as [sb|sb| |sb mb eb]; simpl;
    try reflexivity;
    try (destruct sa; reflexivity); try (destruct sb; reflexivity);
    try (destruct sa, sb; reflexivity).
  destruct sa, sb; try reflexivity;
    rewrite (Z.compare_antisym ea eb);
    destruct (ea ?= eb); simpl; try reflexivity;
    rewrite (Pos.compare_cont_antisym ma mb Eq); reflexivity.
Qed.

Ltac compare_numbers a b :=
  rewrite ?FloatAxioms.ltb_spec, ?FloatAxioms.leb_spec, ?FloatAxioms.eqb_spec in *;
  unfold SFltb, SFleb, SFeqb in *;
  rewrite ?(SFcompare_swap (Prim2SF a) (Prim2SF b)) in *;
  destruct (SFcompare (Prim2SF a) (Prim2SF b)) as [[| |]|];
  cbn [CompOpp] in *.

(** When [x] is at most [y] and not below it, they are equal; and between
    comparable numbers [x <= y] fails exactly when [y < x]. *)
Lemma Number_order (x y : float) :
  ((x <? y)%float = false -> (x <=? y)%float = true ->
   (y =? x)%float = true /\ (y <=? x)%float = true)
  /\ ((x <=? y)%float = true ->
      (y <? x)%float = false
      /\ ((y =? x)%float = true <-> (x <? y)%float = false))
  /\ ((y <=? x)%float = true ->
      ((x <=? y)%float = false <-> (y <? x)%float = true))
  /\ ((y =? x)%float = true -> (x <=? y)%float = true).
Proof.
  compare_numbers x y; repeat split; intros; try discriminate; auto.
Qed.

Lemma SFcompare_none (a b : spec_float) :
  SFcompare a b = None -> a = S754_nan \/ b = S754_nan.
Proof.
  destruct a as [sa|sa| |sa ma ea], b as [sb|sb| |sb mb eb]; simpl;
    intros H; try discriminate; auto.
Qed.

(** Numbers are comparable: NaN, which they are not, compares with
    nothing, itself included. *)
Lemma Number_leb_self (x y : float) :
  (x =? x)%float = true -> (0 <=? y)%float = true ->
  (x <? y)%float = false -> (y <=? x)%float = true.
Proof.
  rewrite ?FloatAxioms.ltb_spec, ?FloatAxioms.leb_spec, ?FloatAxioms.eqb_spec.
  unfold SFltb, SFleb, SFeqb.
  rewrite (SFcompare_swap (Prim2SF x) (Prim2SF y)).
  intros Hx Hy.
  destruct (SFcompare (Prim2SF x) (Prim2SF y)) as [[| |]|] eqn:E;
    cbn [CompOpp]; try reflexivity; try discriminate.
  intros _. exfalso. apply SFcompare_none in E. destruct E as [E|E].
  - rewrite E in Hx. discriminate Hx.
  - rewrite E in Hy. vm_compute in Hy. discriminate Hy.
Qed.

Lemma canRefund_iff (this : Payment.t) :
  Payment.canRefund this = true
  <-> Payment.status this = PaymentStatus.success
      /\ Refund.isRefunded (Payment.refund this) = false.
Proof.
  unfold Payment.canRefund.
  destruct (Payment.status this), (Refund.isRefunded (Payment.refund this));
    simpl; split; intros H; try discriminate; auto; destruct H; discriminate.
Qed.

(** X9.  The Payment model's own [processRefund].  It throws exactly when
    the Payment is not refundable (not in status success, or already
    refunded), or the amount is above the paid amount, or the amount is
    not at least 0; otherwise it saves the Payment with
    [refund.isRefunded] and the amount.  The status becomes refunded
    exactly when the paid amount is at most the refund, which is also when
    [isFullyRefunded] holds.  For a paid amount that is a number this
    means: the refund is at most the paid amount, the status becomes
    refunded exactly when the two are equal, and stays success exactly
    when the refund is smaller; after such a partial refund the Payment is
    no longer refundable, so partial refunds cannot be repeated. *)
Theorem Payment_processRefund_outcome (now : Z) (this : Payment.t)
    (refundAmount : float) (reason : option string)
    (processedBy : option ObjectId) (c : list Payment.t) :
  match Payment.processRefund now this refundAmount reason processedBy c with
  | inl _ =>
      Payment.canRefund this = false
      \/ (Payment.amount this <? refundAmount)%float = true
      \/ (0 <=? refundAmount)%float = false
  | inr c' =>
      Payment.status this = PaymentStatus.success
      /\ Refund.isRefunded (Payment.refund this) = false
      /\ (0 <=? refundAmount)%float = true
      /\ (Payment.amount this <? refundAmount)%float = false
      /\ exists this',
           c' = Payment.save this' c
           /\ Payment._id this' = Payment._id this
           /\ Payment.refund this'
              = Refund.mk true (Some refundAmount) None (Some now) reason
                  processedBy
           /\ Payment.canRefund this' = false
           /\ (Payment.status this' = PaymentStatus.refunded
               <-> (Payment.amount this <=? refundAmount)%float = true)
           /\ (Payment.status this' = PaymentStatus.success
               <-> (Payment.amount this <=? refundAmount)%float = false)
           /\ (isFullyRefunded this' = true
               <-> Payment.status this' = PaymentStatus.refunded)
           /\ ((Payment.amount this =? Payment.amount this)%float = true ->
               (refundAmount <=? Payment.amount this)%float = true
               /\ (Payment.status this' = PaymentStatus.refunded
                   <-> (refundAmount =? Payment.amount this)%float = true)
               /\ (Payment.status this' = PaymentStatus.success
                   <-> (refundAmount <? Payment.amount this)%float = true))
  end.
Proof.
  unfold Payment.processRefund.
  destruct (Payment.canRefund this) eqn:Hcan; cbn [negb]; [|auto].
  destruct (Payment.amount this <? refundAmount)%float eqn:Hgt; [auto|].
  destruct (0 <=? refundAmount)%float eqn:Hpos; cbn [negb]; [|auto].
  apply canRefund_iff in Hcan. destruct Hcan as [Hst Hnot].
  repeat (split; [assumption || reflexivity|]).
  destruct (Number_order (Payment.amount this) refundAmount)
    as (Heq & Hle & Hge & Hsame).
  destruct (Payment.amount this <=? refundAmount)%float eqn:Hfull.
  - eexists. split; [reflexivity|]. split; [reflexivity|].
    split; [reflexivity|]. split; [reflexivity|].
    cbn [Payment.status Payment.set_status Payment.set_refund].
    split; [split; reflexivity|].
    split; [split; discriminate|].
    split.
    { unfold isFullyRefunded. cbn. rewrite Hfull. split; reflexivity. }
    intros _. destruct (Heq Hgt eq_refl) as [He Hl].
    destruct (Hle eq_refl) as [Hnlt _].
    split; [exact Hl|]. split; [split; [intros _; exact He | reflexivity]|].
    split; [discriminate | congruence].
  - eexists. split; [reflexivity|]. split; [reflexivity|].
    split; [reflexivity|].
    cbn [Payment.status Payment.set_status Payment.set_refund].
    split; [unfold Payment.canRefund; cbn; rewrite Hst; reflexivity|].
    rewrite Hst.
    split; [split; discriminate|].
    split; [split; reflexivity|].
    split.
    { unfold isFullyRefunded. cbn. rewrite Hfull. split; discriminate. }
    intros Hnum.
    pose proof (Number_leb_self _ _ Hnum Hpos Hgt) as Hl.
    destruct (Hge Hl) as [Hlt _]. specialize (Hlt eq_refl).
    split; [exact Hl|].
    split; [split; [discriminate|]|split; [intros _; exact Hlt | reflexivity]].
    intros He. apply Hsame in He. congruence.
Qed.

(** ** Booking windows, continued *)

(** X10.  [canReschedule] is true exactly when the current time is
    strictly more than four hours before [scheduledDate] and the status is
    pending, confirmed or assigned.  Hence a pending or confirmed booking
    that can be rescheduled can also be cancelled, while an assigned
    booking can be rescheduled but never cancelled. *)
Theorem canReschedule_exact (now : Z) (b : Booking.t) :
  (canReschedule now b = true
   <-> now < Booking.scheduledDate b - 4 * 60 * 60 * 1000
       /\ (Booking.status b = BookingStatus.pending
           \/ Booking.status b = BookingStatus.confirmed
           \/ Booking.status b = BookingStatus.assigned))
  /\ (canReschedule now b = true ->
      Booking.status b <> BookingStatus.assigned ->
      canCancel now b = true)
  /\ (Booking.status b = BookingStatus.assigned -> canCancel now b = false).
Proof.
  unfold canReschedule, canCancel. split; [|split].
  - rewrite andb_true_iff, Z.ltb_lt.
    destruct (Booking.status b); simpl; split; intros [H1 H2];
      try discriminate; split; auto;
      destruct H2 as [H2|[H2|H2]]; discriminate.
  - rewrite !andb_true_iff, !Z.ltb_lt. intros [Ht Hs] Hna. split; [lia|].
    destruct (Booking.status b); simpl in *; congruence.
  - intros ->. apply andb_false_r.
Qed.

Lemma canReschedule_exact_witness :
  canReschedule 1705300000000 booking_noon = true
  /\ canCancel 1705300000000 booking_noon = true.
Proof.
  destruct (canReschedule_exact 1705300000000 booking_noon) as (_ & H & _).
  split; [reflexivity|]. apply H; [reflexivity | simpl; discriminate].
Defined.

(** ** Cancellation, continued *)

Lemma Booking_findById_id (id : ObjectId) (c : list Booking.t) (b : Booking.t) :
  Booking.findById id c = Some b -> Booking._id b = id.
Proof.
  intros H. apply findOne_some in H. destruct H as [_ H].
  now apply Nat.eqb_eq in H.
Qed.

(** X11.  What an accepted [cancelBooking] leaves behind: when the booking
    exists, the requester is its owner or not a customer, and [canCancel]
    holds, the answer is 200 and the booking is stored in status cancelled
    with a cancellation record naming the requester, the time and the
    reason (the default reason when none or an empty one is given); every
    other booking is as before; no Payment is touched, so nothing is
    refunded.  A further [cancelBooking] on it is refused. *)
Theorem cancelBooking_accepted (env : Env.t) (req : CancelBookingReq.t)
    (w : World.t) (b : Booking.t) :
  Booking.findById (CancelBookingReq.params_id req) (World.bookings w) = Some b ->
  User.role (CancelBookingReq.user req) <> customer
  \/ Booking.customerId b = User._id (CancelBookingReq.user req) ->
  canCancel (Env.now env) b = true ->
  let w' := snd (cancelBooking env req w) in
  res_status (fst (cancelBooking env req w)) = 200%nat
  /\ Booking.findById (CancelBookingReq.params_id req) (World.bookings w')
     = Some (Booking.set_cancellation
               (Cancellation.mk true (Some (User._id (CancelBookingReq.user req)))
                  (Some (Env.now env))
                  (Some (or_default (CancelBookingReq.reason req)
                           "Cancelled by user"))
                  None)
               (Booking.set_status BookingStatus.cancelled b))
  /\ (forall id, id <> CancelBookingReq.params_id req ->
      Booking.findById id (World.bookings w')
      = Booking.findById id (World.bookings w))
  /\ World.payments w' = World.payments w
  /\ World.gatewayRefunds w' = World.gatewayRefunds w
  /\ (forall env' req',
        CancelBookingReq.params_id req' = CancelBookingReq.params_id req ->
        res_status (fst (cancelBooking env' req' w')) <> 200%nat
        /\ snd (cancelBooking env' req' w') = w').
Proof.
  intros Hb Hauth Hcan w'.
  pose proof (Booking_findById_id _ _ _ Hb) as Hid.
  set (b' := Booking.set_cancellation
               (Cancellation.mk true (Some (User._id (CancelBookingReq.user req)))
                  (Some (Env.now env))
                  (Some (or_default (CancelBookingReq.reason req)
                           "Cancelled by user"))
                  None)
               (Booking.set_status BookingStatus.cancelled b)).
  assert (Hgate :
    Role_eqb (User.role (CancelBookingReq.user req)) customer
    && negb (Nat.eqb (Booking.customerId b)
               (User._id (CancelBookingReq.user req))) = false).
  { destruct Hauth as [Hrole|Hown].
    - destruct (User.role (CancelBookingReq.user req)); simpl; congruence.
    - rewrite Hown, Nat.eqb_refl. apply andb_false_r. }
  assert (Hrun :
    cancelBooking env req w
    = (mkResponse 200 "Booking cancelled successfully" None,
       World.set_bookings
         (Booking.findByIdAndUpdate (CancelBookingReq.params_id req)
            (fun _ => b') (World.bookings w))
         w)).
  { unfold cancelBooking. rewrite Hb, Hgate, Hcan.
    cbn [negb Booking._id Booking.set_cancellation Booking.set_status].
    rewrite Hid. reflexivity. }
  assert (Hfound :
    Booking.findById (CancelBookingReq.params_id req) (World.bookings w')
    = Some b').
  { subst w'. rewrite Hrun. cbn [snd World.bookings World.set_bookings].
    unfold Booking.findById, Booking.findByIdAndUpdate.
    apply (findOne_updateOne
             (fun x => Nat.eqb (Booking._id x) (CancelBookingReq.params_id req))
             (fun _ => b') (World.bookings w) b); [|exact Hb].
    intros x _. cbn. rewrite Hid. apply Nat.eqb_refl. }
  split; [|split; [exact Hfound|split; [|split; [|split]]]].
  - rewrite Hrun. reflexivity.
  - intros id Hne. subst w'. rewrite Hrun.
    cbn [snd World.bookings World.set_bookings].
    unfold Booking.findById, Booking.findByIdAndUpdate.
    apply findOne_updateOne_disjoint; intros x.
    + intros _. cbn. rewrite Hid. apply Nat.eqb_neq. congruence.
    + rewrite Nat.eqb_eq, Nat.eqb_neq. congruence.
  - subst w'. rewrite Hrun. reflexivity.
  - subst w'. rewrite Hrun. reflexivity.
  - intros env' req' Hsame. unfold cancelBooking. rewrite Hsame, Hfound.
    assert (Hno : canCancel (Env.now env') b' = false).
    { unfold canCancel. cbn. apply andb_false_r. }
    rewrite Hno. cbn [negb].
    match goal with
    | |- context [if ?g then _ else _] => destruct g
    end; cbn [fst snd fail res_status];
      (split; [intros H; discriminate H | reflexivity]).
Qed.

Lemma cancelBooking_accepted_witness :
  let w' :=
    snd (cancelBooking (clock 1705312800000)
           (CancelBookingReq.mk 1%nat (Some "") alice) scene) in
  (exists b',
     Booking.findById 1%nat (World.bookings w') = Some b'
     /\ Booking.status b' = BookingStatus.cancelled
     /\ Cancellation.cancellationReason (Booking.cancellation b')
        = Some "Cancelled by user")
  /\ snd (cancelBooking (clock 1705312900000)
            (CancelBookingReq.mk 1%nat None alice) w') = w'.
Proof.
  destruct (cancelBooking_accepted (clock 1705312800000)
              (CancelBookingReq.mk 1%nat (Some "") alice) scene booking_alice)
    as (_ & Hb' & _ & _ & _ & Hagain);
    [reflexivity | right; reflexivity | reflexivity |].
  split.
  - eexists. split; [exact Hb'|]. split; reflexivity.
  - apply Hagain. reflexivity.
Defined.

(** ** Pricing, continued *)

Lemma resolves_or_dangling (catalog : list Service.t) (item : ServiceItem.t) :
  resolves catalog item \/ dangling catalog item.
Proof.
  unfold resolves, dangling.
  destruct (Service_findById catalog (ServiceItem.serviceId item)) as [s|];
    [|auto].
  destruct (Service.isActive s) eqn:E; [left; exists s; auto | auto].
Qed.

Lemma validateServices_dangling (catalog : list Service.t)
    (item : ServiceItem.t) (post : list ServiceItem.t) (sub0 : float)
    (v0 : list LineItem.t) :
  dangling catalog item ->
  validateServices catalog (item :: post) sub0 v0
  = inl (ServiceNotFoundOrInactive (ServiceItem.serviceId item)).
Proof.
  unfold dangling. simpl.
  destruct (Service_findById catalog (ServiceItem.serviceId item)) as [s|];
    [|reflexivity].
  intros ->. reflexivity.
Qed.

Lemma validateServices_first_dangling (catalog : list Service.t)
    (pre : list ServiceItem.t) (item : ServiceItem.t)
    (post : list ServiceItem.t) :
  Forall (resolves catalog) pre ->
  dangling catalog item ->
  forall sub0 v0,
    validateServices catalog (pre ++ item :: post) sub0 v0
    = inl (ServiceNotFoundOrInactive (ServiceItem.serviceId item)).
Proof.
  intros Hpre Hbad. induction Hpre as [|x pre (s & Hs & Hact) _ IH];
    intros sub0 v0.
  - now apply validateServices_dangling.
  - simpl. rewrite Hs, Hact. simpl. apply IH.
Qed.

Lemma validateServices_error (catalog : list Service.t)
    (services : list ServiceItem.t) :
  forall sub0 v0 id,
    validateServices catalog services sub0 v0
    = inl (ServiceNotFoundOrInactive id) ->
    exists pre item post,
      services = (pre ++ item :: post)%list
      /\ Forall (resolves catalog) pre
      /\ dangling catalog item
      /\ ServiceItem.serviceId item = id.
Proof.
  induction services as [|x rest IH]; intros sub0 v0 id; simpl; [discriminate|].
  destruct (Service_findById catalog (ServiceItem.serviceId x)) as [s|] eqn:Hs.
  - destruct (Service.isActive s) eqn:Hact; simpl.
    + intros H. destruct (IH _ _ _ H) as (pre & item & post & -> & Hpre & Hbad & Hid).
      exists (x :: pre), item, post. repeat split; auto.
      constructor; [exists s; auto | exact Hpre].
    + intros [= <-]. exists [], x, rest. repeat split; auto.
      unfold dangling. now rewrite Hs.
  - intros [= <-]. exists [], x, rest. repeat split; auto.
    unfold dangling. now rewrite Hs.
Qed.

(** X12.  Pricing fails exactly on a dangling service reference, and
    names the first one: [computePricing] returns the error for id [id]
    if and only if the request splits into items that all resolve to an
    active service, then an item with [serviceId = id] whose service is
    missing or inactive.  Quantities play no part in the failure. *)
Theorem computePricing_error (catalog : list Service.t)
    (services : list ServiceItem.t) (id : ObjectId) :
  computePricing catalog services = inl (ServiceNotFoundOrInactive id)
  <-> exists pre item post,
        services = (pre ++ item :: post)%list
        /\ Forall (resolves catalog) pre
        /\ dangling catalog item
        /\ ServiceItem.serviceId item = id.
Proof.
  unfold computePricing. split.
  - destruct (validateServices catalog services 0%float [])
      as [e|[sub v]] eqn:H;
      [|discriminate].
    intros [= ->]. exact (validateServices_error _ _ _ _ _ H).
  - intros (pre & item & post & -> & Hpre & Hbad & <-).
    now rewrite (validateServices_first_dangling _ _ _ _ Hpre Hbad).
Qed.

(** ** Booking creation *)

Lemma validateServices_resolved (catalog : list Service.t)
    (services : list ServiceItem.t) :
  Forall (resolves catalog) services ->
  forall sub0 v0,
    exists sub v, validateServices catalog services sub0 v0 = inr (sub, v).
Proof.
  induction 1 as [|x rest (s & Hs & Hact) _ IH]; intros sub0 v0; simpl.
  - eauto.
  - rewrite Hs, Hact. simpl. apply IH.
Qed.

(** X14.  [createBooking] creates nothing.  [Booking.create] is handed a
    document without [bookingNumber]; the schema requires one, and
    validation runs before the [pre('save')] hook that would generate it.
    So every request is refused: with 400 and the id of the first dangling
    service reference when there is one, with 500 otherwise; the answer
    carries no booking, the world is unchanged, and 201 is never
    answered. *)
Theorem createBooking_rejects (env : Env.t) (req : CreateBookingReq.t)
    (w : World.t) :
  snd (createBooking env req w) = w
  /\ res_data (fst (createBooking env req w)) = None
  /\ res_status (fst (createBooking env req w)) <> 201%nat
  /\ (Forall (resolves (World.services w)) (CreateBookingReq.services req) ->
      fst (createBooking env req w) = fail 500 "Failed to create booking")
  /\ (forall pre item post,
        CreateBookingReq.services req = (pre ++ item :: post)%list ->
        Forall (resolves (World.services w)) pre ->
        dangling (World.services w) item ->
        fst (createBooking env req w)
        = fail 400 ("Service " ++ toString (ServiceItem.serviceId item)
                    ++ " not found or inactive")).
Proof.
  rewrite createBooking_answer. cbn [fst snd].
  split; [reflexivity|].
  split; [destruct (computePricing _ _) as [[id]|]; reflexivity|].
  split; [destruct (computePricing _ _) as [[id]|]; discriminate|].
  split.
  - intros Hres. unfold computePricing.
    destruct (validateServices_resolved _ _ Hres 0%float [])
      as (sub & v & ->). reflexivity.
  - intros pre item post Hsplit Hpre Hbad. unfold computePricing.
    rewrite Hsplit, (validateServices_first_dangling _ _ _ _ Hpre Hbad).
    reflexivity.
Qed.

Lemma createBooking_rejects_witness :
  fst (createBooking (fst request_alice) (snd request_alice) scene_morning)
  = fail 500 "Failed to create booking"
  /\ fst (createBooking (Env.mk 1705312800000 1%nat 0)
            (CreateBookingReq.mk
               [ServiceItem.mk 7%nat 1 None; ServiceItem.mk 9%nat 1 None]
               1705572000000 "9:00 AM - 11:00 AM" alice) scene_morning)
     = fail 400 "Service 9 not found or inactive".
Proof.
  split.
  - destruct (createBooking_rejects (fst request_alice) (snd request_alice)
                scene_morning) as (_ & _ & _ & H & _).
    apply H. constructor; [|constructor].
    exists deepClean. split; reflexivity.
  - destruct (createBooking_rejects (Env.mk 1705312800000 1%nat 0)
                (CreateBookingReq.mk
                   [ServiceItem.mk 7%nat 1 None; ServiceItem.mk 9%nat 1 None]
                   1705572000000 "9:00 AM - 11:00 AM" alice) scene_morning)
      as (_ & _ & _ & _ & H).
    apply (H [ServiceItem.mk 7%nat 1 None] (ServiceItem.mk 9%nat 1 None) []).
    + reflexivity.
    + constructor; [|constructor]. exists deepClean. split; reflexivity.
    + exact I.
Defined.

(** ** Booking numbers, continued *)

Lemma append_cancel_l (a s1 s2 : string) : a ++ s1 = a ++ s2 -> s1 = s2.
Proof.
  induction a as [|c a IH]; simpl; [auto|]. intros [= H]. auto.
Qed.

Lemma leading_zeros (k : nat) (s : string) :
  option_map Nat.of_uint (NilEmpty.uint_of_string (repeat_string "0" k ++ s))
  = option_map Nat.of_uint (NilEmpty.uint_of_string s).
Proof.
  induction k as [|k IH]; simpl; [reflexivity|].
  rewrite <- IH.
  destruct (NilEmpty.uint_of_string (repeat_string "0" k ++ s)); reflexivity.
Qed.

Lemma parseDigits_nonempty (s : string) :
  s <> "" ->
  parseDigits s = option_map Nat.of_uint (NilEmpty.uint_of_string s).
Proof.
  destruct s; [congruence | reflexivity].
Qed.

Lemma toString_nonempty (n : nat) : toString n <> "".
Proof.
  unfold toString. destruct (Nat.to_uint n); discriminate.
Qed.

Lemma parseDigits_toString (n : nat) : parseDigits (toString n) = Some n.
Proof.
  unfold parseDigits, toString.
  destruct (Nat.to_uint n) eqn:E;
    [rewrite <- (DecimalNat.Unsigned.of_to n), E; reflexivity|..];
    rewrite NilZero.usu by discriminate; simpl option_map;
    rewrite <- E; f_equal; apply DecimalNat.Unsigned.of_to.
Qed.

Lemma parseDigits_padStart (width n : nat) :
  parseDigits (padStart width (toString n)) = Some n.
Proof.
  unfold padStart.
  rewrite parseDigits_nonempty.
  - rewrite leading_zeros, <- parseDigits_nonempty by apply toString_nonempty.
    apply parseDigits_toString.
  - destruct (width - String.length (toString n))%nat; simpl;
      [apply toString_nonempty | discriminate].
Qed.

(** X15.  The sequence suffix of a booking number reads back: the number
    is ["DC"], the date string and a suffix whose decimal value is the
    count of the day plus one, whatever the count (the padding to four
    digits loses nothing, and a fifth digit is kept).  So at one instant
    two collections give the same number only if they hold the same number
    of bookings of the day. *)
Theorem bookingNumber_reads_back (tz date : Z) (bookings : list Booking.t) :
  (exists suffix,
     generateBookingNumber tz date bookings = "DC" ++ dateStr date ++ suffix
     /\ parseDigits suffix = Some (countToday tz date bookings + 1)%nat)
  /\ forall bookings',
       generateBookingNumber tz date bookings
       = generateBookingNumber tz date bookings' ->
       countToday tz date bookings = countToday tz date bookings'.
Proof.
  split.
  - eexists. split; [reflexivity|]. apply parseDigits_padStart.
  - intros bookings' H. unfold generateBookingNumber in H.
    apply append_cancel_l in H. apply append_cancel_l in H.
    apply (f_equal parseDigits) in H.
    rewrite !parseDigits_padStart in H. injection H as H.
    unfold countToday. lia.
Qed.

Lemma bookingNumber_reads_back_witness :
  countToday 0 1705312800000 [] = countToday 0 1705312800000 [booking_noon].
Proof.
  destruct (bookingNumber_reads_back 0 1705312800000 []) as [_ H].
  apply H. reflexivity.
Defined.

(** ** Reading bookings *)

Lemma someStaffIs_true (users : list User.t) (id : ObjectId)
    (l : list StaffAssignment.t) :
  someStaffIs id (map (fun a => User_findById users (StaffAssignment.staffId a)) l)
  = Some true ->
  exists a, In a l /\ StaffAssignment.staffId a = id.
Proof.
  induction l as [|a l IH]; simpl; [discriminate|].
  destruct (User_findById users (StaffAssignment.staffId a)) as [u|] eqn:Hu;
    [|discriminate].
  destruct (Nat.eqb (User._id u) id) eqn:E.
  - intros _. exists a. split; [now left|].
    apply findOne_some in Hu. destruct Hu as [_ Hu].
    apply Nat.eqb_eq in Hu, E. congruence.
  - intros H. destruct (IH H) as (a' & Hin & Hid). exists a'. auto.
Qed.

(** X16.  Who [getBooking] answers.  A 200 answer carries the stored
    booking of the requested id; to a customer only a booking whose
    [customerId] is the requester, to staff only a booking whose
    [assignedStaff] names the requester.  An admin is answered 200 for
    every stored booking. *)
Theorem getBooking_access (users : list User.t) (bookings : list BookingDoc.t)
    (req : GetBookingReq.t) :
  (res_status (getBooking users bookings req) = 200%nat ->
   exists b,
     findOne (fun b => Nat.eqb (Booking._id (BookingDoc.core b))
                         (GetBookingReq.params_id req)) bookings = Some b
     /\ res_data (getBooking users bookings req)
        = Some (populateBooking users b)
     /\ (User.role (GetBookingReq.user req) = customer ->
         Booking.customerId (BookingDoc.core b)
         = User._id (GetBookingReq.user req))
     /\ (User.role (GetBookingReq.user req) = staff ->
         exists a,
           In a (BookingDoc.assignedStaff b)
           /\ StaffAssignment.staffId a = User._id (GetBookingReq.user req)))
  /\ (User.role (GetBookingReq.user req) = admin ->
      forall b,
        findOne (fun b => Nat.eqb (Booking._id (BookingDoc.core b))
                            (GetBookingReq.params_id req)) bookings = Some b ->
        getBooking users bookings req
        = ok 200 "Booking retrieved successfully" (populateBooking users b)).
Proof.
  unfold getBooking. split.
  - destruct (findOne _ bookings) as [b|]; [|discriminate].
    destruct (User.role (GetBookingReq.user req)) eqn:Hrole;
      cbn [Role_eqb].
    + cbn [PopulatedBooking.customerId populateBooking].
      destruct (User_findById users (Booking.customerId (BookingDoc.core b)))
        as [c|] eqn:Hc; [|discriminate].
      destruct (Nat.eqb (User._id c) _) eqn:E; cbn [negb]; [|discriminate].
      intros _. exists b. repeat split; [|discriminate].
      intros _. apply findOne_some in Hc. destruct Hc as [_ Hc].
      apply Nat.eqb_eq in Hc, E. congruence.
    + cbn [PopulatedBooking.staffId populateBooking].
      destruct (someStaffIs _ _) as [[|]|] eqn:Hs; cbn [negb];
        try discriminate.
      intros _. exists b. repeat split; [discriminate|].
      intros _. exact (someStaffIs_true _ _ _ Hs).
    + intros _. exists b. repeat split; discriminate.
  - intros Hrole b Hb. rewrite Hb, Hrole. reflexivity.
Qed.

Lemma getBooking_access_witness :
  res_status (getBooking [alice; bob; carl; root] [doc_alice; doc_bob]
                (GetBookingReq.mk 1%nat carl)) = 200%nat
  /\ (exists a,
        In a (BookingDoc.assignedStaff doc_alice)
        /\ StaffAssignment.staffId a = User._id carl)
  /\ getBooking [alice; bob; carl; root] [doc_alice; doc_bob]
       (GetBookingReq.mk 2%nat root)
     = ok 200 "Booking retrieved successfully"
         (populateBooking [alice; bob; carl; root] doc_bob).
Proof.
  destruct (getBooking_access [alice; bob; carl; root] [doc_alice; doc_bob]
              (GetBookingReq.mk 1%nat carl)) as [H _].
  destruct (H eq_refl) as (b & Hb & _ & _ & Hstaff).
  vm_compute in Hb. injection Hb as <-.
  split; [reflexivity|]. split; [exact (Hstaff eq_refl)|].
  apply (getBooking_access [alice; bob; carl; root] [doc_alice; doc_bob]
           (GetBookingReq.mk 2%nat root)); reflexivity.
Defined.

(** *** Sorting *)

Section SortAsc.
Context {A : Type} (key : A -> Z).

Lemma insert_asc_perm (d : A) (c : list A) :
  Permutation (insert_asc key d c) (d :: c).
Proof.
  induction c as [|x c IH]; simpl; [reflexivity|].
  destruct (key d <? key x); [reflexivity|].
  rewrite IH. apply perm_swap.
Qed.

Lemma sort_asc_perm (c : list A) : Permutation (sort_asc key c) c.
Proof.
  induction c as [|x c IH]; simpl; [reflexivity|].
  rewrite insert_asc_perm. now constructor.
Qed.

Lemma insert_asc_hd (d y : A) (c : list A) :
  key y <= key d ->
  HdRel (fun a b => key a <= key b) y c ->
  HdRel (fun a b => key a <= key b) y (insert_asc key d c).
Proof.
  intros Hyd Hc. destruct c as [|x c]; simpl; [now constructor|].
  destruct (key d <? key x); constructor; [exact Hyd|].
  now inversion Hc.
Qed.

Lemma insert_asc_sorted (d : A) (c : list A) :
  Sorted (fun a b => key a <= key b) c ->
  Sorted (fun a b => key a <= key b) (insert_asc key d c).
Proof.
  induction 1 as [|x c Hc IH Hhd]; simpl; [repeat constructor|].
  destruct (key d <? key x) eqn:E.
  - apply Z.ltb_lt in E. repeat constructor; [exact Hc | exact Hhd | lia].
  - apply Z.ltb_ge in E. constructor; [exact IH|].
    now apply insert_asc_hd.
Qed.

Lemma sort_asc_sorted (c : list A) :
  Sorted (fun a b => key a <= key b) (sort_asc key c).
Proof.
  induction c as [|x c IH]; simpl; [constructor|].
  now apply insert_asc_sorted.
Qed.

End SortAsc.

(** X17.  What [getUpcomingBookings] returns: the stored bookings that
    are confirmed or assigned, scheduled no later than [hours] hours from
    now (24 when the parameter is absent, not a number or 0), and, for a
    customer, their own (for staff, those they are assigned to); each
    exactly once, earliest first.  There is no lower bound on the date: a
    confirmed booking whose date has passed is returned too.  The horizon
    is assumed to be a valid [Date]. *)
Theorem getUpcomingBookings_result (now : Z) (users : list User.t)
    (bookings : list BookingDoc.t) (req : UpcomingReq.t) :
  Z.abs (now + parsed_or (UpcomingReq.query_hours req) 24 * 60 * 60 * 1000)
  <= 8640000000000000 ->
  exists data,
    getUpcomingBookings now users bookings req
    = ok 200 "Upcoming bookings retrieved successfully" data
    /\ Permutation (map fst data)
         (List.filter (upcomingFilter now req) bookings)
    /\ Sorted (fun a b => Booking.scheduledDate (BookingDoc.core a)
                          <= Booking.scheduledDate (BookingDoc.core b))
         (map fst data)
    /\ forall b,
         In b (map fst data) ->
         In b bookings
         /\ (Booking.status (BookingDoc.core b) = BookingStatus.confirmed
             \/ Booking.status (BookingDoc.core b) = BookingStatus.assigned)
         /\ Booking.scheduledDate (BookingDoc.core b)
            <= now + parsed_or (UpcomingReq.query_hours req) 24 * 60 * 60 * 1000
         /\ (User.role (UpcomingReq.user req) = customer ->
             Booking.customerId (BookingDoc.core b)
             = User._id (UpcomingReq.user req))
         /\ (User.role (UpcomingReq.user req) = staff ->
             exists a,
               In a (BookingDoc.assignedStaff b)
               /\ StaffAssignment.staffId a = User._id (UpcomingReq.user req)).
Proof.
  intros _.
  unfold getUpcomingBookings. eexists. split; [reflexivity|].
  rewrite map_map. cbn [fst]. rewrite map_id.
  split; [apply sort_asc_perm|]. split; [apply sort_asc_sorted|].
  intros b Hin.
  apply (Permutation_in _ (sort_asc_perm _ _)) in Hin.
  unfold find in Hin. apply filter_In in Hin. destruct Hin as [Hin Hf].
  split; [exact Hin|]. unfold upcomingFilter in Hf.
  rewrite !andb_true_iff, Z.leb_le in Hf. destruct Hf as [[Hdate Hst] Hrole].
  split; [|split; [exact Hdate|split]].
  - destruct (Booking.status (BookingDoc.core b)); simpl in Hst;
      try discriminate; auto.
  - intros Hc. rewrite Hc in Hrole. now apply Nat.eqb_eq.
  - intros Hs. rewrite Hs in Hrole. apply existsb_exists in Hrole.
    destruct Hrole as (a & Ha & Hid). exists a. split; [exact Ha|].
    now apply Nat.eqb_eq.
Qed.

(** Two days before Alice's appointment, with a horizon of 72 hours, Carl
    is shown the one booking he is assigned to. *)
Lemma getUpcomingBookings_result_witness :
  exists data,
    getUpcomingBookings 1705399200000 [alice; bob; carl; root]
      [doc_bob; doc_alice] (UpcomingReq.mk (Some 72) carl)
    = ok 200 "Upcoming bookings retrieved successfully" data
    /\ map fst data = [doc_alice].
Proof.
  destruct (getUpcomingBookings_result 1705399200000 [alice; bob; carl; root]
              [doc_bob; doc_alice] (UpcomingReq.mk (Some 72) carl))
    as (data & Hrun & _).
  { vm_compute. discriminate. }
  exists data. split; [exact Hrun|].
  vm_compute in Hrun. injection Hrun as <-. reflexivity.
Defined.

(** ** Updating bookings *)

Lemma allowedFields_customer (status : BookingStatus.t) :
  allowedFields customer status
  = if includes [BookingStatus.pending; BookingStatus.confirmed] status
    then ["scheduledDate"; "scheduledTimeSlot"; "specialInstructions";
          "serviceAddress"]
    else [].
Proof.
  unfold allowedFields. simpl. now rewrite app_nil_r.
Qed.

Lemma updateData_keys {V : Type} (role : Role) (status : BookingStatus.t)
    (body : list (string * V)) (k : string) :
  In k (map fst (updateData role status body)) ->
  In k (map fst body) /\ In k (allowedFields role status).
Proof.
  unfold updateData. rewrite !in_map_iff.
  intros ((k', v) & <- & Hin). apply filter_In in Hin. destruct Hin as [Hin Hk].
  split; [exists (k', v); auto|].
  apply existsb_exists in Hk. destruct Hk as (f & Hf & Heq).
  apply String.eqb_eq in Heq. simpl in Heq. now subst.
Qed.

(** X18.  The field gate of [updateBooking].  Only entries of the request
    body pass, in their order.  From a customer only the schedule fields
    ([scheduledDate], [scheduledTimeSlot], [specialInstructions],
    [serviceAddress]) pass, and only while the booking is pending or
    confirmed: otherwise nothing passes.  From staff and admin only
    [status], [assignedStaff] and [completion] pass, whatever the status:
    they cannot change the schedule, and a customer cannot change the
    status. *)
Theorem updateData_gate {V : Type} (role : Role) (status : BookingStatus.t)
    (body : list (string * V)) :
  (forall k, In k (map fst (updateData role status body)) ->
     In k (map fst body)
     /\ if Role_eqb role customer
        then In k ["scheduledDate"; "scheduledTimeSlot"; "specialInstructions";
                   "serviceAddress"]
             /\ (status = BookingStatus.pending
                 \/ status = BookingStatus.confirmed)
        else In k ["status"; "assignedStaff"; "completion"])
  /\ (role = customer ->
      status <> BookingStatus.pending -> status <> BookingStatus.confirmed ->
      updateData role status body = [])
  /\ (forall k v,
        In (k, v) body ->
        In k (allowedFields role status) ->
        In (k, v) (updateData role status body)).
Proof.
  split; [|split].
  - intros k Hk. apply updateData_keys in Hk. destruct Hk as [Hbody Hallowed].
    split; [exact Hbody|].
    destruct role; cbn [Role_eqb].
    + rewrite allowedFields_customer in Hallowed.
      destruct status; simpl in Hallowed; try contradiction; auto.
    + unfold allowedFields in Hallowed. simpl in Hallowed. exact Hallowed.
    + unfold allowedFields in Hallowed. simpl in Hallowed. exact Hallowed.
  - intros -> Hp Hc. unfold updateData. rewrite allowedFields_customer.
    destruct status; try congruence; simpl;
      induction body as [|x body IH]; simpl; auto.
  - intros k v Hin Hk. unfold updateData. apply filter_In. split; [exact Hin|].
    apply existsb_exists. exists k. split; [exact Hk|]. apply String.eqb_refl.
Qed.

Lemma updateData_gate_witness :
  updateData customer BookingStatus.confirmed
    [("status", "completed"); ("scheduledTimeSlot", "2:00 PM - 4:00 PM")]
  = [("scheduledTimeSlot", "2:00 PM - 4:00 PM")]
  /\ updateData customer BookingStatus.assigned
       [("status", "completed"); ("scheduledTimeSlot", "2:00 PM - 4:00 PM")]
     = [].
Proof.
  split; [reflexivity|].
  apply (updateData_gate customer BookingStatus.assigned);
    [reflexivity | discriminate | discriminate].
Defined.

(** ** Service images *)

Lemma markFirstPrimary_rest (k : nat) (images : list Image.t) :
  List.filter Image.isPrimary (markFirstPrimary (S k) images) = [].
Proof.
  revert k. induction images as [|img rest IH]; intros k; simpl; auto.
Qed.

Lemma markFirstPrimary_urls (k : nat) (images : list Image.t) :
  map Image.url (markFirstPrimary k images) = map Image.url images
  /\ map Image.alt (markFirstPrimary k images) = map Image.alt images.
Proof.
  revert k. induction images as [|img rest IH]; intros k; simpl; [auto|].
  destruct (IH (S k)) as [-> ->]. auto.
Qed.

(** X20.  The primary-image hook.  After it ran on modified images at most
    one image is primary, and urls and alt texts are as before.  With at
    most one primary image nothing changes; with several, the image at
    index 0 becomes the primary one, whether or not it was among them, and
    is what the [primaryImage] virtual then returns.  When the images were
    not modified the hook does nothing. *)
Theorem ensureOnePrimary_spec (images : list Image.t) :
  let after := ensureOnePrimary true images in
  (List.length (List.filter Image.isPrimary after) <= 1)%nat
  /\ map Image.url after = map Image.url images
  /\ map Image.alt after = map Image.alt images
  /\ ((List.length (List.filter Image.isPrimary images) <= 1)%nat ->
      after = images)
  /\ ((1 < List.length (List.filter Image.isPrimary images))%nat ->
      exists first rest,
        images = first :: rest
        /\ primaryImage after
           = Some (Image.mk (Image.url first) (Image.alt first) true)
        /\ List.filter Image.isPrimary after
           = [Image.mk (Image.url first) (Image.alt first) true])
  /\ ensureOnePrimary false images = images.
Proof.
  unfold ensureOnePrimary.
  destruct (1 <? List.length (List.filter Image.isPrimary images))%nat eqn:E.
  - apply Nat.ltb_lt in E.
    destruct images as [|first rest]; [simpl in E; lia|].
    cbn [markFirstPrimary Nat.eqb].
    split; [|split; [|split; [|split; [|split]]]].
    + simpl. rewrite markFirstPrimary_rest. simpl. lia.
    + simpl. now rewrite (proj1 (markFirstPrimary_urls 1 rest)).
    + simpl. now rewrite (proj2 (markFirstPrimary_urls 1 rest)).
    + intros H. lia.
    + intros _. exists first, rest. split; [reflexivity|]. split.
      * reflexivity.
      * simpl. now rewrite markFirstPrimary_rest.
    + reflexivity.
  - apply Nat.ltb_ge in E.
    split; [exact E|]. repeat split; auto. intros H. lia.
Qed.

Lemma ensureOnePrimary_spec_witness :
  primaryImage
    (ensureOnePrimary true
       [Image.mk "a.jpg" None false; Image.mk "b.jpg" None true;
        Image.mk "c.jpg" None true])
  = Some (Image.mk "a.jpg" None true).
Proof.
  destruct (ensureOnePrimary_spec
              [Image.mk "a.jpg" None false; Image.mk "b.jpg" None true;
               Image.mk "c.jpg" None true])
    as (_ & _ & _ & _ & H & _).
  destruct H as (first & rest & Heq & Hp & _); [simpl; lia|].
  injection Heq as <- <-. exact Hp.
Defined.

(** ** Coupons *)

(** X22.  [findValidCoupon] does not look at usage.  What it returns is a
    stored coupon of the upper-cased code that is active, inside its
    window, and whose minimum order value is met (or 0); that coupon is
    valid in the sense of [isValid] exactly when its usage is under its
    limit, which the query never tests.  Changing the usage figures of
    every stored coupon changes the result in nothing but those figures,
    so a coupon used up to its limit is still found. *)
Theorem findValidCoupon_usage_blind (toUpperCase : string -> string)
    (now : Z) (coupons : list Coupon.t) (code : string) (orderTotal : Q) :
  (forall c,
     Coupon.findValidCoupon toUpperCase now coupons code orderTotal = Some c ->
     In c coupons
     /\ Coupon.code c = toUpperCase code
     /\ Coupon.isActive c = true
     /\ Coupon.validFrom c <= now <= Coupon.validUntil c
     /\ ((Coupon.minimumOrderValue c <= orderTotal)%Q
         \/ (Coupon.minimumOrderValue c == 0)%Q)
     /\ Coupon.isValid now c = Coupon.underLimit c)
  /\ forall limit count,
       Coupon.findValidCoupon toUpperCase now
         (map (with_usage limit count) coupons) code orderTotal
       = option_map (with_usage limit count)
           (Coupon.findValidCoupon toUpperCase now coupons code orderTotal).
Proof.
  split.
  - intros c H. unfold Coupon.findValidCoupon in H.
    apply findOne_some in H. destruct H as [Hin H].
    rewrite !andb_true_iff, orb_true_iff in H.
    destruct H as [[[[Hcode Hact] Hfrom] Huntil] Hmin].
    apply String.eqb_eq in Hcode. apply Z.leb_le in Hfrom, Huntil.
    repeat split; auto.
    + destruct Hmin as [Hmin|Hmin];
        [left; now apply Qle_bool_iff | right; now apply Qeq_bool_iff].
    + unfold Coupon.isValid. rewrite Hact.
      apply Z.leb_le in Hfrom, Huntil. now rewrite Hfrom, Huntil.
  - intros limit count. unfold Coupon.findValidCoupon.
    induction coupons as [|c coupons IH]; simpl; [reflexivity|].
    destruct (_ && _); [reflexivity | exact IH].
Qed.

Lemma findValidCoupon_usage_blind_witness :
  Coupon.findValidCoupon (fun s => s) 1705312800000
    [with_usage (Some 50) 50 welcome10] "WELCOME10" 1180
  = Some (with_usage (Some 50) 50 welcome10)
  /\ Coupon.isValid 1705312800000 (with_usage (Some 50) 50 welcome10) = false.
Proof.
  destruct (findValidCoupon_usage_blind (fun s => s) 1705312800000
              [welcome10] "WELCOME10" 1180) as [_ H].
  split; [exact (H (Some 50) 50) | reflexivity].
Defined.

(** ** Booking numbers: the width of the suffix *)

Lemma repeat_string_length (n : nat) :
  String.length (repeat_string "0" n) = n.
Proof.
  induction n as [|n IH]; simpl; [reflexivity | now rewrite IH].
Qed.

Lemma append_length (a b : string) :
  String.length (a ++ b) = (String.length a + String.length b)%nat.
Proof.
  induction a as [|c a IH]; simpl; [reflexivity | now rewrite IH].
Qed.

Lemma padStart_length (width : nat) (s : string) :
  String.length (padStart width s) = Nat.max width (String.length s).
Proof.
  unfold padStart. rewrite append_length, repeat_string_length. lia.
Qed.

Lemma of_lu_bound (d : Decimal.uint) :
  (DecimalNat.Unsigned.of_lu d < 10 ^ Decimal.nb_digits d)%nat.
Proof.
  induction d; cbn [DecimalNat.Unsigned.of_lu Decimal.nb_digits];
    rewrite ?Nat.pow_succ_r'; simpl Nat.pow at 1; lia.
Qed.

Lemma string_of_uint_length (d : Decimal.uint) :
  String.length (NilEmpty.string_of_uint d) = Decimal.nb_digits d.
Proof.
  induction d; simpl; congruence.
Qed.

(** A number is below ten to the number of its digits. *)
Lemma toString_bound (n : nat) : (n < 10 ^ String.length (toString n))%nat.
Proof.
  unfold toString.
  rewrite <- (DecimalNat.Unsigned.of_to n) at 1.
  rewrite DecimalNat.Unsigned.of_uint_alt.
  pose proof (of_lu_bound (Decimal.rev (Nat.to_uint n))) as H.
  rewrite DecimalFacts.nb_digits_rev in H.
  destruct (Nat.to_uint n) eqn:E;
    [simpl in *; lia|..];
    unfold NilZero.string_of_uint; rewrite string_of_uint_length; exact H.
Qed.

Lemma toString_short :
  forallb (fun n => (String.length (toString n) <=? 4)%nat) (seq 0 (10 ^ 4))
  = true.
Proof.
  vm_compute. reflexivity.
Qed.

Lemma ten_to_four : Z.of_nat (10 ^ 4) = 10000.
Proof. reflexivity. Qed.

(** X23.  The width of the sequence suffix.  It has exactly four
    characters as long as the count of the day plus one is below 10000,
    and five or more from the 10000th booking of a day on: [padStart] pads
    short strings and never cuts long ones. *)
Theorem sequence_width (n : nat) :
  (Z.of_nat n < 10000 -> String.length (padStart 4 (toString n)) = 4%nat)
  /\ (10000 <= Z.of_nat n ->
      (5 <= String.length (padStart 4 (toString n)))%nat).
Proof.
  rewrite padStart_length, <- ten_to_four. split.
  - intros Hn. apply Nat2Z.inj_lt in Hn.
    pose proof toString_short as H.
    rewrite forallb_forall in H.
    specialize (H n). rewrite in_seq in H.
    assert (Hle : (String.length (toString n) <=? 4)%nat = true)
      by (apply H; split; [apply Nat.le_0_l | exact Hn]).
    apply Nat.leb_le in Hle. lia.
  - intros Hn. apply Nat2Z.inj_le in Hn.
    pose proof (toString_bound n) as Hb.
    assert (Hlt : (10 ^ 4 < 10 ^ String.length (toString n))%nat)
      by (eapply Nat.le_lt_trans; eassumption).
    apply Nat.pow_lt_mono_r_iff in Hlt; lia.
Qed.

Lemma sequence_width_witness :
  String.length (padStart 4 (toString 42)) = 4%nat
  /\ (5 <= String.length (padStart 4 (toString (Z.to_nat 12345))))%nat.
Proof.
  split.
  - apply (sequence_width 42). simpl. lia.
  - apply (sequence_width (Z.to_nat 12345)). lia.
Defined.

(** ** Reading payments, continued *)

(** X24.  When [getPayment] answers 200: exactly when the Payment is
    stored, its booking is not, and, if the requester is a customer, the
    Payment's [customerId] is the requester's [_id] and names a stored
    user.  Whenever the booking of the Payment is stored the answer is not
    200: the populated booking cannot be serialised, and the handler
    answers 500 to staff, to an admin and to the owner alike. *)
Theorem getPayment_200 (req : GetPaymentReq.t) (w : World.t) :
  (res_status (getPayment req w) = 200%nat
   <-> exists p,
         Payment.findById (GetPaymentReq.params_id req) (World.payments w)
         = Some p
         /\ Booking.findById (Payment.bookingId p) (World.bookings w) = None
         /\ res_data (getPayment req w)
            = Some (PopulatedPayment.mk p None
                      (User_findById (World.users w) (Payment.customerId p)))
         /\ (User.role (GetPaymentReq.user req) = customer ->
             Payment.customerId p = User._id (GetPaymentReq.user req)
             /\ exists c, User_findById (World.users w) (Payment.customerId p)
                          = Some c))
  /\ (forall p b,
        Payment.findById (GetPaymentReq.params_id req) (World.payments w)
        = Some p ->
        Booking.findById (Payment.bookingId p) (World.bookings w) = Some b ->
        res_status (getPayment req w) <> 200%nat
        /\ (User.role (GetPaymentReq.user req) <> customer
            \/ Payment.customerId p = User._id (GetPaymentReq.user req) ->
            getPayment req w = fail 500 "Failed to retrieve payment details")).
Proof.
  unfold getPayment, sendPayment, User_findById. split; [split|].
  - destruct (Payment.findById _ _) as [p|]; [|discriminate].
    cbn [PopulatedPayment.customerId PopulatedPayment.bookingId].
    destruct (Booking.findById _ _) as [b|] eqn:Hb.
    + destruct (Role_eqb _ _); [|discriminate].
      destruct (findOne _ (World.users w)); [|discriminate].
      destruct (negb _); discriminate.
    + destruct (User.role (GetPaymentReq.user req)) eqn:Hrole; cbn [Role_eqb].
      * destruct (findOne _ (World.users w)) as [c|] eqn:Hc; [|discriminate].
        destruct (Nat.eqb (User._id c) _) eqn:E; cbn [negb]; [|discriminate].
        intros _. exists p. split; [reflexivity|]. split; [exact Hb|].
        split; [cbn; rewrite ?Hb, ?Hc; cbn; rewrite ?E; reflexivity|].
        intros _. pose proof Hc as Hid. apply findOne_some in Hid.
        destruct Hid as [_ Hid]. apply Nat.eqb_eq in Hid, E.
        split; [congruence | eauto].
      * intros _. exists p. split; [reflexivity|]. split; [exact Hb|].
        split; [cbn; rewrite ?Hb; reflexivity | discriminate].
      * intros _. exists p. split; [reflexivity|]. split; [exact Hb|].
        split; [cbn; rewrite ?Hb; reflexivity | discriminate].
  - intros (p & Hp & Hb & _ & Hown). rewrite Hp.
    cbn [PopulatedPayment.customerId PopulatedPayment.bookingId]. rewrite Hb.
    destruct (User.role (GetPaymentReq.user req)) eqn:Hrole; cbn [Role_eqb];
      [|reflexivity|reflexivity].
    destruct (Hown eq_refl) as (Hid & c & Hc). rewrite Hc.
    pose proof Hc as Hc'. apply findOne_some in Hc'. destruct Hc' as [_ Hc'].
    apply Nat.eqb_eq in Hc'.
    assert (E : Nat.eqb (User._id c) (User._id (GetPaymentReq.user req)) = true)
      by (apply Nat.eqb_eq; congruence).
    rewrite E. reflexivity.
  - intros p b Hp Hb. rewrite Hp.
    cbn [PopulatedPayment.customerId PopulatedPayment.bookingId]. rewrite Hb.
    split.
    + destruct (Role_eqb _ _); [|discriminate].
      destruct (findOne _ (World.users w)); [|discriminate].
      destruct (negb _); discriminate.
    + intros Hwho.
      destruct (User.role (GetPaymentReq.user req)) eqn:Hrole; cbn [Role_eqb];
        [|reflexivity|reflexivity].
      destruct Hwho as [Hne|Hown]; [congruence|].
      destruct (findOne _ (World.users w)) as [c|] eqn:Hc; [|reflexivity].
      apply findOne_some in Hc. destruct Hc as [_ Hc]. apply Nat.eqb_eq in Hc.
      assert (E : Nat.eqb (User._id c) (User._id (GetPaymentReq.user req))
                  = true) by (apply Nat.eqb_eq; congruence).
      rewrite E. reflexivity.
Qed.

Section SortDesc.
Context {A : Type} (key : A -> Z).

Lemma insert_desc_perm (d : A) (c : list A) :
  Permutation (insert_desc key d c) (d :: c).
Proof.
  induction c as [|x c IH]; simpl; [reflexivity|].
  destruct (key x <? key d); [reflexivity|].
  rewrite IH. apply perm_swap.
Qed.

Lemma sort_desc_perm (c : list A) : Permutation (sort_desc key c) c.
Proof.
  induction c as [|x c IH]; simpl; [reflexivity|].
  rewrite insert_desc_perm. now constructor.
Qed.

Lemma insert_desc_hd (d y : A) (c : list A) :
  key d <= key y ->
  HdRel (fun a b => key b <= key a) y c ->
  HdRel (fun a b => key b <= key a) y (insert_desc key d c).
Proof.
  intros Hyd Hc. destruct c as [|x c]; simpl; [now constructor|].
  destruct (key x <? key d); constructor; [exact Hyd|].
  now inversion Hc.
Qed.

Lemma insert_desc_sorted (d : A) (c : list A) :
  Sorted (fun a b => key b <= key a) c ->
  Sorted (fun a b => key b <= key a) (insert_desc key d c).
Proof.
  induction 1 as [|x c Hc IH Hhd]; simpl; [repeat constructor|].
  destruct (key x <? key d) eqn:E.
  - apply Z.ltb_lt in E. repeat constructor; [exact Hc | exact Hhd | lia].
  - apply Z.ltb_ge in E. constructor; [exact IH|].
    now apply insert_desc_hd.
Qed.

Lemma sort_desc_sorted (c : list A) :
  Sorted (fun a b => key b <= key a) (sort_desc key c).
Proof.
  induction c as [|x c IH]; simpl; [constructor|].
  now apply insert_desc_sorted.
Qed.

End SortDesc.

(** X25.  What [getBookingPayments] returns: the stored Payments of the
    requested booking, each exactly once, newest first; an empty list, not
    an error, when the booking has none or does not exist. *)
Theorem getBookingPayments_result (req : GetBookingPaymentsReq.t)
    (w : World.t) :
  exists payments,
    getBookingPayments req w
    = ok 200 "Booking payments retrieved successfully" payments
    /\ Permutation payments
         (List.filter
            (fun p => Nat.eqb (Payment.bookingId p)
                        (GetBookingPaymentsReq.params_bookingId req))
            (World.payments w))
    /\ Sorted (fun a b => Payment.createdAt b <= Payment.createdAt a) payments
    /\ (forall p,
          In p payments
          <-> In p (World.payments w)
              /\ Payment.bookingId p
                 = GetBookingPaymentsReq.params_bookingId req)
    /\ ((forall p, In p (World.payments w) ->
           Payment.bookingId p <> GetBookingPaymentsReq.params_bookingId req) ->
        payments = []).
Proof.
  unfold getBookingPayments. eexists. split; [reflexivity|].
  split; [apply sort_desc_perm|]. split; [apply sort_desc_sorted|]. split.
  - intros p. split.
    + intros Hin. apply (Permutation_in _ (sort_desc_perm _ _)) in Hin.
      apply filter_In in Hin. destruct Hin as [Hin Hb].
      apply Nat.eqb_eq in Hb. auto.
    + intros [Hin Hb].
      apply (Permutation_in _ (Permutation_sym (sort_desc_perm _ _))).
      apply filter_In. split; [exact Hin | now apply Nat.eqb_eq].
  - intros Hnone. unfold find.
    assert (E : List.filter
                  (fun p => Nat.eqb (Payment.bookingId p)
                              (GetBookingPaymentsReq.params_bookingId req))
                  (World.payments w) = []).
    { induction (World.payments w) as [|p l IH]; simpl; [reflexivity|].
      destruct (Nat.eqb_spec (Payment.bookingId p)
                  (GetBookingPaymentsReq.params_bookingId req)) as [Heq|Hne].
      - exfalso. apply (Hnone p); [now left | exact Heq].
      - apply IH. intros q Hq. apply Hnone. now right. }
    rewrite E. reflexivity.
Qed.
